(** * discord-timestamp-bot: time parsing, timestamp markup and the
      per-user timezone store

    A shallow embedding of [utils/time_parser.py] and of the command
    handlers of [cogs/timestamp.py], with the properties of the
    specification stated over it.

    Conventions of the model.
    - A Python [str] is a [string]; a character is one of the first 256
      code points (the type [ascii] read as Latin-1).  The three emoji of
      the replies lie outside that range and are written as their UTF-8
      bytes.
    - A Python [int] is a [Z].
    - A raised exception is the [Err] case of [result]; the class and the
      message are kept.
    - The wall clock, the IANA database behind [pytz.timezone], the
      phrase interpreter [dateparser.parse] and the outcome of writing
      the preference file are inputs of the functions that use them. *)

From Stdlib Require Import ZArith Ascii String List Lia Bool.
From Stdlib Require Import DecimalString DecimalZ DecimalPos.
From stdpp Require Import gmap strings.

Local Open Scope Z_scope.

(** ** Exceptions and results *)

Inductive exn : Type :=
| ValueError (msg : string)
| OverflowError (msg : string)
| TypeError (msg : string).

Inductive result (A : Type) : Type :=
| Ok (a : A)
| Err (e : exn).
Arguments Ok {A} a.
Arguments Err {A} e.

Definition bind {A B : Type} (r : result A) (f : A -> result B) : result B :=
  match r with
  | Ok a => f a
  | Err e => Err e
  end.

Notation "x <- r ;; k" := (bind r (fun x => k))
  (at level 100, r at next level, k at level 200, right associativity).

(** [str(n)] for an int and the decimal text inside an f-string. *)
Definition str (n : Z) : string := NilZero.string_of_int (Z.to_int n).

(** ** Text: the [str] methods and character classes the parser uses *)

Module Text.

Definition ord (c : ascii) : Z := Z.of_N (N_of_ascii c).
Definition chr (n : Z) : ascii := ascii_of_N (Z.to_N n).

Definition between (lo hi : Z) (c : ascii) : bool :=
  (lo <=? ord c) && (ord c <=? hi).

(** [\d] of a str pattern, [str.isdecimal]: below U+0100 only 0-9. *)
Definition isdecimal (c : ascii) : bool := between 48 57 c.

(** [\s] of a str pattern, [str.isspace]: TAB LF VT FF CR, the four
    separators FS GS RS US, SPACE, NEL and NO-BREAK SPACE. *)
Definition isspace (c : ascii) : bool :=
  between 9 13 c || between 28 32 c || (ord c =? 133) || (ord c =? 160).

(** [str.lower] on one character: A-Z, and the Latin-1 capitals
    U+00C0..U+00DE without the multiplication sign U+00D7. *)
Definition lower_char (c : ascii) : ascii :=
  if between 65 90 c || (between 192 222 c && negb (ord c =? 215))
  then chr (ord c + 32) else c.

Fixpoint lower (s : string) : string :=
  match s with
  | EmptyString => EmptyString
  | String c s' => String (lower_char c) (lower s')
  end.

Fixpoint lstrip (s : string) : string :=
  match s with
  | EmptyString => EmptyString
  | String c s' => if isspace c then lstrip s' else s
  end.

Fixpoint rstrip (s : string) : string :=
  match s with
  | EmptyString => EmptyString
  | String c s' =>
      match rstrip s' with
      | EmptyString => if isspace c then EmptyString else String c EmptyString
      | r => String c r
      end
  end.

Definition strip (s : string) : string := rstrip (lstrip s).

(** Every character of [s] satisfies [p]. *)
Fixpoint all (p : ascii -> bool) (s : string) : bool :=
  match s with
  | EmptyString => true
  | String c s' => p c && all p s'
  end.

Definition not_colon (c : ascii) : bool := negb (Ascii.eqb c ":").

(** [s[:n]] *)
Fixpoint take (n : nat) (s : string) : string :=
  match n, s with
  | S n', String c s' => String c (take n' s')
  | _, _ => EmptyString
  end.

(** [s.startswith(p)], giving what follows the prefix. *)
Fixpoint strip_prefix (p s : string) : option string :=
  match p, s with
  | EmptyString, _ => Some s
  | String a p', String b s' =>
      if Ascii.eqb a b then strip_prefix p' s' else None
  | String _ _, EmptyString => None
  end.

End Text.

(** ** Re: the fragment of [re] the two duration patterns are written in

    A backtracking matcher.  [exec r s g] lists, in the order the engine
    tries them, every way [r] can match at the start of [s]: the text
    left after the match and the text of capturing group 1.  Quantifiers
    are greedy, alternatives are tried left to right, and the engine
    keeps the first way that lets the whole pattern match. *)

Module Re.

Inductive atom : Type :=
| Chr (c : ascii)      (* a literal character *)
| Digit                (* \d *)
| Space.               (* \s *)

Inductive regex : Type :=
| Lit (p : string)         (* literal text *)
| One (a : atom)           (* a *)
| Star (a : atom)          (* a* *)
| Plus (a : atom)          (* a+ *)
| Opt (a : atom)           (* a? *)
| Seq (r1 r2 : regex)      (* r1 r2 *)
| Alt (r1 r2 : regex)      (* r1|r2 *)
| Group (r : regex).       (* (r), capturing group 1 *)

Definition accepts (a : atom) (c : ascii) : bool :=
  match a with
  | Chr d => Ascii.eqb d c
  | Digit => Text.isdecimal c
  | Space => Text.isspace c
  end.

(** The texts left after [a*], longest run first. *)
Fixpoint star (a : atom) (s : string) : list string :=
  match s with
  | EmptyString => [EmptyString]
  | String c s' => if accepts a c then star a s' ++ [s] else [s]
  end.

Definition consumed (s rest : string) : string :=
  Text.take (String.length s - String.length rest) s.

Fixpoint exec (r : regex) (s : string) (g : option string)
  : list (string * option string) :=
  match r with
  | Lit p =>
      match Text.strip_prefix p s with
      | Some rest => [(rest, g)]
      | None => []
      end
  | One a =>
      match s with
      | String c s' => if accepts a c then [(s', g)] else []
      | EmptyString => []
      end
  | Star a => map (fun rest => (rest, g)) (star a s)
  | Plus a =>
      match s with
      | String c s' =>
          if accepts a c then map (fun rest => (rest, g)) (star a s') else []
      | EmptyString => []
      end
  | Opt a =>
      match s with
      | String c s' => if accepts a c then [(s', g); (s, g)] else [(s, g)]
      | EmptyString => [(s, g)]
      end
  | Seq r1 r2 => flat_map (fun m => exec r2 (fst m) (snd m)) (exec r1 s g)
  | Alt r1 r2 => exec r1 s g ++ exec r2 s g
  | Group r1 => map (fun m => (fst m, Some (consumed s (fst m)))) (exec r1 s g)
  end.

(** A match object: [m.start()], [m.end()] and [m.group(1)]. *)
Record match_object : Type := MatchObject {
  m_start : nat;
  m_end : nat;
  m_group1 : option string
}.

(** [pattern.match] at offset [i], [s] being the text from [i] on. *)
Definition match_at (r : regex) (s : string) (i : nat) : option match_object :=
  match exec r s None with
  | (rest, g) :: _ =>
      Some (MatchObject i (i + (String.length s - String.length rest)) g)
  | [] => None
  end.

(** Scan for the leftmost offset at which the pattern matches. *)
Fixpoint search_from (r : regex) (s : string) (i : nat) : option match_object :=
  match match_at r s i with
  | Some m => Some m
  | None =>
      match s with
      | EmptyString => None
      | String _ s' => search_from r s' (S i)
      end
  end.

(** [re.search(r, s)] *)
Definition search (r : regex) (s : string) : option match_object :=
  search_from r s 0.

(** [m.group(1)] *)
Definition group1 (m : match_object) : option string := m_group1 m.

(** [s] is empty or starts with a character [a] rejects. *)
Definition stops (a : atom) (s : string) : Prop :=
  match s with
  | EmptyString => True
  | String c _ => accepts a c = false
  end.

(** No capturing group inside. *)
Fixpoint group_free (r : regex) : bool :=
  match r with
  | Group _ => false
  | Seq r1 r2 | Alt r1 r2 => group_free r1 && group_free r2
  | _ => true
  end.

End Re.

(** ** Float: [int / int] and [int(float)] on binary64, in integers

    [true_divide a b] is the double nearest to the quotient [a / b]
    (ties to even), as CPython's int true division computes it, written
    as [mantissa * 2 ^ exponent].  Only [b > 0] and quotients in the
    normal range of binary64 are modelled; every quotient of a count of
    microseconds of a datetime by [10 ^ 6] lies there. *)

Module Float.

Record float : Type := MkFloat { mantissa : Z; exponent : Z }.

(** [n / d] rounded to the nearest integer, ties to even ([0 <= n], [0 < d]). *)
Definition round_half_even (n d : Z) : Z :=
  let q := n / d in
  let r := n mod d in
  if 2 * r <? d then q
  else if d <? 2 * r then q + 1
  else if Z.even q then q else q + 1.

(** The integer [k] with [2 ^ k <= n / d < 2 ^ (k + 1)] ([0 < n], [0 < d]). *)
Definition ilog2_quot (n d : Z) : Z :=
  let k := Z.log2 n - Z.log2 d in
  let reached := if 0 <=? k then d * 2 ^ k <=? n else d <=? n * 2 ^ (- k) in
  if reached then k else k - 1.

Definition true_divide (a b : Z) : float :=
  if a =? 0 then MkFloat 0 0
  else
    let n := Z.abs a in
    let e := ilog2_quot n b - 52 in
    let m := if 0 <=? e then round_half_even n (b * 2 ^ e)
             else round_half_even (n * 2 ^ (- e)) b in
    MkFloat (Z.sgn a * m) e.

(** [int(x)]: the fraction is dropped, towards zero. *)
Definition to_int (x : float) : Z :=
  if 0 <=? exponent x then mantissa x * 2 ^ exponent x
  else Z.quot (mantissa x) (2 ^ (- exponent x)).

End Float.

(** ** Datetime: aware [datetime] values and [timedelta]

    An aware datetime is its wall-clock reading, counted in microseconds
    from 1970-01-01T00:00:00 on that wall clock, with its [tzinfo].  A
    [timedelta] is a count of microseconds. *)

Module Datetime.

Record tzinfo : Type := TzInfo {
  zone : string;
  utcoffset : Z          (* microseconds east of UTC *)
}.

(** [pytz.UTC] *)
Definition UTC : tzinfo := TzInfo "UTC" 0.

Record datetime : Type := DateTime {
  wall : Z;
  tz : tzinfo
}.

(** [datetime.min] and [datetime.max]: 0001-01-01T00:00:00 and
    9999-12-31T23:59:59.999999. *)
Definition MIN_WALL : Z := -62135596800000000.
Definition MAX_WALL : Z := 253402300799999999.

Definition in_range (w : Z) : bool := (MIN_WALL <=? w) && (w <=? MAX_WALL).

(** [timedelta(hours=h, minutes=m)]; more than 999999999 days either
    way is an [OverflowError] (the message shown is the one for a count
    of days that still fits a C int). *)
Definition timedelta (hours minutes : Z) : result Z :=
  let us := (hours * 3600 + minutes * 60) * 1000000 in
  let days := us / 86400000000 in
  if (-999999999 <=? days) && (days <=? 999999999) then Ok us
  else Err (OverflowError
              ("days=" +:+ str days +:+ "; must have magnitude <= 999999999")).

(** [dt + delta]: the wall clock moves, the [tzinfo] stays; a result
    outside years 1..9999 is an [OverflowError]. *)
Definition add (dt : datetime) (delta : Z) : result datetime :=
  let w := wall dt + delta in
  if in_range w then Ok (DateTime w (tz dt))
  else Err (OverflowError "date value out of range").

(** Microseconds from the epoch 1970-01-01T00:00:00Z to the instant,
    [(dt - _EPOCH) // timedelta(microseconds=1)]. *)
Definition instant (dt : datetime) : Z := wall dt - utcoffset (tz dt).

(** [dt.timestamp()] of an aware datetime: [(dt - _EPOCH).total_seconds()],
    the count of microseconds divided by [10 ** 6] as a float. *)
Definition timestamp (dt : datetime) : Float.float :=
  Float.true_divide (instant dt) 1000000.

(** The whole seconds from the epoch to the instant, towards zero. *)
Definition epoch_seconds (dt : datetime) : Z := Z.quot (instant dt) 1000000.

End Datetime.

(** ** utils/time_parser.py *)

Module TimeParser.
Import Datetime.

(** r'(\d+)\s*(?:hour|hr|h)s?' *)
Definition hour_pattern : Re.regex :=
  Re.Seq (Re.Group (Re.Plus Re.Digit))
    (Re.Seq (Re.Star Re.Space)
       (Re.Seq (Re.Alt (Re.Lit "hour") (Re.Alt (Re.Lit "hr") (Re.Lit "h")))
          (Re.Opt (Re.Chr "s")))).

(** r'(\d+)\s*(?:minute|min|m)s?' *)
Definition minute_pattern : Re.regex :=
  Re.Seq (Re.Group (Re.Plus Re.Digit))
    (Re.Seq (Re.Star Re.Space)
       (Re.Seq (Re.Alt (Re.Lit "minute") (Re.Alt (Re.Lit "min") (Re.Lit "m")))
          (Re.Opt (Re.Chr "s")))).

(** The alternations [(?:hour|hr|h)] and [(?:minute|min|m)]. *)
Definition hour_alts : Re.regex :=
  Re.Alt (Re.Lit "hour") (Re.Alt (Re.Lit "hr") (Re.Lit "h")).
Definition minute_alts : Re.regex :=
  Re.Alt (Re.Lit "minute") (Re.Alt (Re.Lit "min") (Re.Lit "m")).

(** The shape the two patterns share: r'(\d+)\s*(?:...)s?' *)
Definition unit_pattern (alts : Re.regex) : Re.regex :=
  Re.Seq (Re.Group (Re.Plus Re.Digit))
    (Re.Seq (Re.Star Re.Space) (Re.Seq alts (Re.Opt (Re.Chr "s")))).

(** The value of a run of decimal digits. *)
Fixpoint digits_value (acc : Z) (s : string) : Z :=
  match s with
  | EmptyString => acc
  | String c s' => digits_value (10 * acc + (Text.ord c - 48)) s'
  end.

Section Parser.

(** [sys.get_int_max_str_digits()]: 0 where the interpreter has no
    limit, 4300 by default where it has one. *)
Variable int_max_str_digits : nat.

(** [int(s)] for a text captured by [(\d+)].  Signs, underscores and
    surrounding blanks, which such a text never has, are not modelled:
    any other text is reported as an invalid literal. *)
Definition int (s : string) : result Z :=
  if negb (Text.all Text.isdecimal s) || (String.length s =? 0)%nat then
    Err (ValueError ("invalid literal for int() with base 10: '" +:+ s +:+ "'"))
  else if (0 <? int_max_str_digits)%nat
          && (int_max_str_digits <? String.length s)%nat then
    Err (ValueError
           ("Exceeds the limit (" +:+ str (Z.of_nat int_max_str_digits)
            +:+ " digits) for integer string conversion: value has "
            +:+ str (Z.of_nat (String.length s))
            +:+ " digits; use sys.set_int_max_str_digits() to increase the limit"))
  else Ok (digits_value 0 s).

(** [int(m.group(1))] when the pattern matched, the initial 0 otherwise. *)
Definition quantity (m : option Re.match_object) : result Z :=
  match m with
  | Some mo =>
      match Re.group1 mo with
      | Some digits => int digits
      | None => Err (TypeError "int() argument must be a string, a bytes-like object or a real number, not 'NoneType'")
      end
  | None => Ok 0
  end.

(** [parse_relative_time(duration_str)], [clock] being what
    [datetime.now(pytz.UTC)] reads: microseconds since the epoch. *)
Definition parse_relative_time (clock : Z) (duration_str : string)
  : result datetime :=
  let now := DateTime clock UTC in
  let duration_str := Text.strip (Text.lower duration_str) in
  let hour_match := Re.search hour_pattern duration_str in
  let minute_match := Re.search minute_pattern duration_str in
  hours <- quantity hour_match ;;
  minutes <- quantity minute_match ;;
  if (hours =? 0) && (minutes =? 0) then
    Err (ValueError ("Could not parse duration: " +:+ duration_str))
  else
    delta <- timedelta hours minutes ;;
    add now delta.

End Parser.

(** The settings dict handed to [dateparser.parse]. *)
Record settings : Type := Settings {
  TIMEZONE : string;
  RETURN_AS_TIMEZONE_AWARE : bool;
  PREFER_DATES_FROM : string
}.

(** A call that leaves the module. *)
Inductive call : Type :=
| CallPytzTimezone (name : string)
| CallDateparserParse (text : string) (s : settings).

Section Resolver.

(** [pytz.timezone(name)]: the tzinfo of a name the IANA database
    knows, [None] where it raises [UnknownTimeZoneError]. *)
Variable pytz_timezone : string -> option tzinfo.

(** [dateparser.parse(text, settings=...)] at the moment of the call:
    a datetime, or [None] for a phrase it cannot read. *)
Variable dateparser_parse : string -> settings -> option datetime.

(** [parse_natural_time(time_str, user_timezone)], with the calls it
    made, in order. *)
Definition parse_natural_time (time_str user_timezone : string)
  : result datetime * list call :=
  match pytz_timezone user_timezone with
  | None =>
      (Err (ValueError ("Unknown timezone: " +:+ user_timezone)),
       [CallPytzTimezone user_timezone])
  | Some _ =>
      let settings := Settings user_timezone true "future" in
      let parsed_dt := dateparser_parse time_str settings in
      (match parsed_dt with
       | None => Err (ValueError ("Could not parse time string: " +:+ time_str))
       | Some dt => Ok dt
       end,
       [CallPytzTimezone user_timezone; CallDateparserParse time_str settings])
  end.

End Resolver.

(** [generate_discord_timestamp(dt, format_type)] *)
Definition generate_discord_timestamp (dt : datetime) (format_type : string)
  : string :=
  let timestamp := Float.to_int (Datetime.timestamp dt) in
  "<t:" +:+ str timestamp +:+ ":" +:+ format_type +:+ ">".

(** The default of [format_type]. *)
Definition default_format_type : string := "F".

(** [get_all_format_examples(dt)]: the dict, in insertion order. *)
Definition get_all_format_examples (dt : datetime)
  : list (string * (string * string)) :=
  [ ("Short Time", ("t", generate_discord_timestamp dt "t"));
    ("Long Time", ("T", generate_discord_timestamp dt "T"));
    ("Short Date", ("d", generate_discord_timestamp dt "d"));
    ("Long Date", ("D", generate_discord_timestamp dt "D"));
    ("Short Date/Time", ("f", generate_discord_timestamp dt "f"));
    ("Long Date/Time", ("F", generate_discord_timestamp dt "F"));
    ("Relative", ("R", generate_discord_timestamp dt "R")) ].

End TimeParser.

(** ** The markup as the specification words it *)

Module MarkupSpec.

(** The closed set of format codes, as the docstring of
    [generate_discord_timestamp] lists them. *)
Definition format_codes : list string := ["t"; "T"; "d"; "D"; "f"; "F"; "R"].

(** The literal pattern [<t:{epochSeconds}:{code}>]. *)
Definition markup (epoch_seconds : Z) (code : string) : string :=
  "<t:" +:+ str epoch_seconds +:+ ":" +:+ code +:+ ">".

(** A markup string: an epoch second count and one code of the set. *)
Definition is_markup (s : string) : Prop :=
  exists n code, In code format_codes /\ s = markup n code.

End MarkupSpec.

(** ** The duration grammar as the specification words it

    An occurrence of a unit is one or more digits, optional whitespace
    and one of the unit's tokens; of all occurrences only the first
    counts, and a unit without occurrence counts as 0. *)

Module DurationSpec.

Definition hour_tokens : list string := ["hour"; "hours"; "hr"; "hrs"; "h"].
Definition minute_tokens : list string := ["minute"; "minutes"; "min"; "mins"; "m"].

(** [digits], then whitespace, then a token, [digits] starting at offset [i]. *)
Definition occurs_at (tokens : list string) (t : string) (i : nat)
  (digits : string) : Prop :=
  exists pre ws tok post,
    t = pre +:+ digits +:+ ws +:+ tok +:+ post
    /\ String.length pre = i
    /\ digits <> EmptyString
    /\ Text.all Text.isdecimal digits = true
    /\ Text.all Text.isspace ws = true
    /\ In tok tokens.

Definition first_occurrence (tokens : list string) (t : string)
  (digits : string) : Prop :=
  exists i, occurs_at tokens t i digits
            /\ forall j d, occurs_at tokens t j d -> (i <= j)%nat.

Definition absent (tokens : list string) (t : string) : Prop :=
  forall i d, ~ occurs_at tokens t i d.

(** The quantity of a unit in [t]: the value of the digits of its
    first occurrence, 0 when it has none. *)
Definition quantity (tokens : list string) (t : string) (q : Z) : Prop :=
  (absent tokens t /\ q = 0)
  \/ (exists digits, first_occurrence tokens t digits
                     /\ TimeParser.digits_value 0 digits = q).

(** Every digit run that counts is short enough for [int()]; a limit
    of 0 is no limit. *)
Definition within_limit (int_max_str_digits : nat) (tokens : list string)
  (t : string) : Prop :=
  forall digits, first_occurrence tokens t digits ->
    int_max_str_digits = 0%nat
    \/ (String.length digits <= int_max_str_digits)%nat.

(** The text the quantities are read from: lowercased, trimmed. *)
Definition normalized (s : string) : string := Text.strip (Text.lower s).

(** The microseconds in [h] hours and [m] minutes. *)
Definition span (h m : Z) : Z := (h * 3600 + m * 60) * 1000000.

(** The values [sys.set_int_max_str_digits] accepts: 0, or at least
    the threshold 640. *)
Definition valid_limit (int_max_str_digits : nat) : Prop :=
  int_max_str_digits = 0%nat \/ (640 <= int_max_str_digits)%nat.

(** The error kind of the parser: its own [ValueError]. *)
Definition UnparseableDuration (e : exn) : Prop :=
  exists t, e = ValueError ("Could not parse duration: " +:+ t).

End DurationSpec.

(** ** cogs/timestamp.py *)

Module Cog.
Import Datetime TimeParser.

(** What [user_timezones.json] holds: nothing, a flat object of
    strings, or something [json.load] or [open] fails on.  A file of
    valid JSON of another shape is not modelled. *)
Inductive file_state : Type :=
| Absent
| Holds (m : gmap string string)
| Unreadable.

(** How [open(..., 'w')] and [json.dump] end: the dump is on disk, or
    an exception [err] was raised and the disk is left with [remains]. *)
Inductive write_outcome : Type :=
| Written
| WriteFailed (remains : file_state) (err : string).

Record cog : Type := MkCog {
  user_timezones : gmap string string;
  file : file_state;
  stdout : list string
}.

(** [interaction.response.send_message(content, ephemeral=...)] *)
Record reply : Type := Reply {
  content : string;
  ephemeral : bool
}.

Definition nl : string := String (ascii_of_nat 10) EmptyString.

(** [str(e)] *)
Definition exn_text (e : exn) : string :=
  match e with
  | ValueError msg | OverflowError msg | TypeError msg => msg
  end.

Definition _load_timezones (f : file_state) : gmap string string :=
  match f with
  | Holds m => m
  | Absent | Unreadable => ∅
  end.

(** [TimestampCog.__init__] *)
Definition __init__ (f : file_state) : cog := MkCog (_load_timezones f) f [].

Definition _save_timezones (o : write_outcome) (self : cog) : cog :=
  match o with
  | Written => MkCog (user_timezones self) (Holds (user_timezones self)) (stdout self)
  | WriteFailed remains err =>
      MkCog (user_timezones self) remains
        (stdout self ++ ["Error saving timezones: " +:+ err])
  end.

Definition _get_user_timezone (self : cog) (user_id : Z) : string :=
  default "UTC" (user_timezones self !! str user_id).

Definition unexpected (e : exn) : reply :=
  Reply ("❌ An unexpected error occurred: " +:+ exn_text e) true.

Section Commands.

Variable int_max_str_digits : nat.
Variable pytz_timezone : string -> option tzinfo.
Variable dateparser_parse : string -> settings -> option datetime.

Definition timestamp_command (self : cog) (user_id : Z) (time_string : string)
  : reply :=
  let user_tz := _get_user_timezone self user_id in
  match fst (parse_natural_time pytz_timezone dateparser_parse time_string user_tz) with
  | Ok dt =>
      let timestamp := generate_discord_timestamp dt "F" in
      Reply ("📅 " +:+ timestamp +:+ " (**" +:+ time_string +:+ "**)") false
  | Err (ValueError msg) =>
      Reply ("❌ Error: " +:+ msg +:+ nl +:+ nl
             +:+ "Please try a different format or set your timezone with `/timezone`")
        true
  | Err e => unexpected e
  end.

(** [clock] is what [datetime.now(pytz.UTC)] reads during the call. *)
Definition in_command (clock : Z) (duration : string) : reply :=
  match parse_relative_time int_max_str_digits clock duration with
  | Ok dt =>
      let timestamp := generate_discord_timestamp dt "R" in
      Reply ("⏱️ " +:+ timestamp +:+ " (in **" +:+ duration +:+ "**)") false
  | Err (ValueError msg) =>
      Reply ("❌ Error: " +:+ msg +:+ nl +:+ nl
             +:+ "Example formats: '1 hour', '30 minutes', '2h 15m'")
        true
  | Err e => unexpected e
  end.

Definition timezone_command (o : write_outcome) (self : cog) (user_id : Z)
  (timezone : string) : cog * reply :=
  match pytz_timezone timezone with
  | Some _ =>
      let self := MkCog (<[str user_id := timezone]> (user_timezones self))
                    (file self) (stdout self) in
      let self := _save_timezones o self in
      (self, Reply ("✅ Your timezone has been set to **" +:+ timezone +:+ "**") true)
  | None =>
      (self,
       Reply ("❌ Unknown timezone: " +:+ timezone +:+ nl +:+ nl
              +:+ "Please use IANA timezone format (e.g., 'America/New_York', 'Europe/London', 'Asia/Tokyo')"
              +:+ nl
              +:+ "Find your timezone at: https://en.wikipedia.org/wiki/List_of_tz_database_time_zones")
         true)
  end.

(** The store after a run of [/timezone] commands, oldest first; the
    other two commands leave the cog as it is. *)
Fixpoint timezone_commands (cmds : list (write_outcome * Z * string))
  (self : cog) : cog :=
  match cmds with
  | [] => self
  | (o, user_id, timezone) :: rest =>
      timezone_commands rest (fst (timezone_command o self user_id timezone))
  end.

End Commands.

End Cog.

(** ** Sample surroundings, for running the commands on concrete inputs *)

Module Samples.
Import Datetime TimeParser.

(** A database that knows "UTC", "Europe/London" and "Asia/Tokyo". *)
Definition three_zones (name : string) : option tzinfo :=
  if String.eqb name "UTC" then Some UTC
  else if String.eqb name "Europe/London" then Some (TzInfo "Europe/London" 0)
  else if String.eqb name "Asia/Tokyo" then Some (TzInfo "Asia/Tokyo" 32400000000)
  else None.

(** An interpreter that reads one phrase only. *)
Definition one_phrase (text : string) (s : settings) : option datetime :=
  if String.eqb text "2024-01-01 12:00" then Some (DateTime 1704110400000000 UTC)
  else None.

End Samples.

(** ** The error kinds of the resolver and of the store, as the
       specification names them *)

Module ErrorSpec.

(** [InvalidTimezone] out of the resolver. *)
Definition InvalidTimezone (e : exn) : Prop :=
  exists name, e = ValueError ("Unknown timezone: " +:+ name).

(** [UnparseableTime] *)
Definition UnparseableTime (e : exn) : Prop :=
  exists text, e = ValueError ("Could not parse time string: " +:+ text).

(** [InvalidTimezone] out of the [/timezone] command: the private reply
    that names the rejected timezone. *)
Definition rejects (r : Cog.reply) (name : string) : Prop :=
  Cog.ephemeral r = true
  /\ exists hint, Cog.content r = "❌ Unknown timezone: " +:+ name +:+ hint.

End ErrorSpec.

(** ** Words for what the functions are observed to do *)

Module Observations.

(** The message of [int()] for [n] digits under a limit of [L]. *)
Definition limit_message (L n : nat) : string :=
  "Exceeds the limit (" +:+ str (Z.of_nat L)
  +:+ " digits) for integer string conversion: value has "
  +:+ str (Z.of_nat n)
  +:+ " digits; use sys.set_int_max_str_digits() to increase the limit".

(** The [ValueError] of [int()] for a digit run longer than the limit. *)
Definition ExceedsLimit (L : nat) (e : exn) : Prop :=
  exists n, (0 < L < n)%nat /\ e = ValueError (limit_message L n).

(** [s.startswith(p)] and [s.endswith(p)] *)
Definition startswith (s p : string) : Prop := exists rest, s = p +:+ rest.
Definition endswith (s p : string) : Prop := exists pre, s = pre +:+ p.

(** Every stored timezone name is one [pytz] knows. *)
Definition all_known (pytz_timezone : string -> option Datetime.tzinfo)
  (m : gmap string string) : Prop :=
  map_Forall (fun _ name => is_Some (pytz_timezone name)) m.

(** The users a run of [/timezone] commands comes from. *)
Definition senders (cmds : list (Cog.write_outcome * Z * string)) : list Z :=
  map (fun c => snd (fst c)) cmds.

End Observations.

(** * Properties *)

(** ** Strings *)

Lemma append_nil_l (b : string) : "" +:+ b = b.
Proof. reflexivity. Qed.

Lemma append_cons (x : ascii) (a b : string) :
  String x a +:+ b = String x (a +:+ b).
Proof. reflexivity. Qed.

Ltac app_simpl := rewrite ?append_cons, ?append_nil_l in *.

Lemma append_assoc (a b c : string) : (a +:+ b) +:+ c = a +:+ (b +:+ c).
Proof. induction a as [|x a IH]; app_simpl; [reflexivity | now rewrite IH]. Qed.

Lemma append_nil_r (a : string) : a +:+ "" = a.
Proof. induction a as [|x a IH]; app_simpl; [reflexivity | now rewrite IH]. Qed.

Lemma length_append (a b : string) :
  String.length (a +:+ b) = (String.length a + String.length b)%nat.
Proof.
  induction a as [|x a IH]; app_simpl; simpl; [reflexivity | now rewrite IH].
Qed.

Lemma append_inv_length (a b a' b' : string) :
  a +:+ b = a' +:+ b' -> String.length a = String.length a' -> a = a' /\ b = b'.
Proof.
  revert a'. induction a as [|x a IH]; intros [|y a'] H Hl; app_simpl;
    simpl in Hl; try discriminate; [now split|].
  injection H as -> H. injection Hl as Hl.
  destruct (IH _ H Hl) as [-> ->]. now split.
Qed.

Lemma take_append (a b : string) : Text.take (String.length a) (a +:+ b) = a.
Proof.
  induction a as [|x a IH]; app_simpl; simpl; [now destruct b | now rewrite IH].
Qed.

Lemma consumed_append (a b : string) : Re.consumed (a +:+ b) b = a.
Proof.
  unfold Re.consumed. rewrite length_append.
  replace (String.length a + String.length b - String.length b)%nat
    with (String.length a) by lia.
  apply take_append.
Qed.

Lemma strip_prefix_Some (p s r : string) :
  Text.strip_prefix p s = Some r <-> s = p +:+ r.
Proof.
  revert s. induction p as [|a p IH]; intros s; app_simpl; simpl.
  - split; [now intros [= ->] | now intros ->].
  - destruct s as [|b s]; [split; discriminate|].
    destruct (Ascii.eqb_spec a b) as [->|Hne].
    + rewrite IH. split; [now intros -> | now intros [= ->]].
    + split; [discriminate | intros [= E _]; now destruct Hne].
Qed.

Lemma strip_prefix_append (p r : string) : Text.strip_prefix p (p +:+ r) = Some r.
Proof. now apply strip_prefix_Some. Qed.

Lemma all_append (p : ascii -> bool) (a b : string) :
  Text.all p (a +:+ b) = Text.all p a && Text.all p b.
Proof.
  induction a as [|x a IH]; app_simpl; simpl; [reflexivity|].
  rewrite IH. now rewrite andb_assoc.
Qed.

(** ** The matcher *)

Module ReFacts.
Import Re.

Lemma star_stops (a : atom) (s : string) : stops a s -> star a s = [s].
Proof. destruct s as [|c s]; simpl; [reflexivity | now intros ->]. Qed.

(** A greedy star first takes the whole run. *)
Lemma star_run (a : atom) (xs rest : string) :
  Text.all (accepts a) xs = true -> stops a rest ->
  exists l, star a (xs +:+ rest) = rest :: l.
Proof.
  intros Hxs Hrest. induction xs as [|x xs IH]; app_simpl; simpl in *.
  - exists []. now apply star_stops.
  - apply andb_true_iff in Hxs as [Hx Hxs]. rewrite Hx.
    destruct (IH Hxs) as [l ->]. now eexists.
Qed.

(** Whatever a star leaves, it took a run of accepted characters. *)
Lemma star_In (a : atom) (s x : string) :
  In x (star a s) ->
  exists xs, s = xs +:+ x /\ Text.all (accepts a) xs = true.
Proof.
  revert x. induction s as [|c s IH]; intros x; simpl.
  - intros [<-|[]]. now exists "".
  - destruct (accepts a c) eqn:Hc.
    + rewrite in_app_iff. intros [Hin|[<-|[]]].
      * destruct (IH _ Hin) as (xs & -> & Hxs).
        exists (String c xs). simpl. now rewrite Hc, Hxs.
      * now exists "".
    + intros [<-|[]]. now exists "".
Qed.

Lemma exec_group_free (r : regex) (s : string) (g : option string) m :
  group_free r = true -> In m (exec r s g) -> snd m = g.
Proof.
  revert s g m. induction r as [p|a|a|a|a|r1 IH1 r2 IH2|r1 IH1 r2 IH2|r IH];
    intros s g m Hgf Hin; simpl in *; try discriminate.
  - destruct (Text.strip_prefix p s); [|easy]. now destruct Hin as [<-|[]].
  - destruct s as [|c s]; [easy|]. destruct (accepts a c); [|easy].
    now destruct Hin as [<-|[]].
  - apply in_map_iff in Hin as (x & <- & _). reflexivity.
  - destruct s as [|c s]; [easy|]. destruct (accepts a c); [|easy].
    apply in_map_iff in Hin as (x & <- & _). reflexivity.
  - destruct s as [|c s]; [now destruct Hin as [<-|[]]|].
    destruct (accepts a c); simpl in Hin; now intuition subst.
  - apply andb_true_iff in Hgf as [H1 H2].
    apply in_flat_map in Hin as (x & Hx & Hm).
    rewrite (IH2 _ _ _ H2 Hm). now apply IH1 with (s := s).
  - apply andb_true_iff in Hgf as [H1 H2].
    apply in_app_iff in Hin as [Hin|Hin]; eauto.
Qed.

(** The first way through [r1 r2] goes through the first way of [r1]
    whenever [r2] can follow it. *)
Lemma exec_seq_first (r1 r2 : regex) (s : string) (g : option string) x l y l' :
  exec r1 s g = x :: l -> exec r2 (fst x) (snd x) = y :: l' ->
  exists l'', exec (Seq r1 r2) s g = y :: l''.
Proof. intros H1 H2. simpl. rewrite H1. simpl. rewrite H2. now eexists. Qed.

Lemma exec_opt_first (a : atom) (s : string) (g : option string) :
  exists y l, exec (Opt a) s g = y :: l.
Proof.
  unfold exec. destruct s as [|c r]; [now eexists _, _|].
  destruct (accepts a c); now eexists _, _.
Qed.

Lemma exec_seq_In (r1 r2 : regex) (s : string) (g : option string) m :
  In m (exec (Seq r1 r2) s g) <->
  exists x, In x (exec r1 s g) /\ In m (exec r2 (fst x) (snd x)).
Proof. simpl. apply in_flat_map. Qed.

End ReFacts.

(** ** The unit patterns against the worded grammar *)

Module PatternFacts.
Import Re ReFacts TimeParser DurationSpec.

Lemma space_not_decimal (c : ascii) :
  Text.isspace c = true -> Text.isdecimal c = false.
Proof.
  destruct c as [[] [] [] [] [] [] [] []]; vm_compute; congruence.
Qed.

Lemma search_from_first (r : regex) (s : string) (i : nat) mo :
  match_at r s i = Some mo -> search_from r s i = Some mo.
Proof. destruct s; cbn [search_from]; now intros ->. Qed.

(** The leftmost offset at which [r] matches, and what it matches there. *)
Lemma search_from_spec (r : regex) (s : string) (i : nat) :
  match search_from r s i with
  | Some mo =>
      exists pre sfx rest g l,
        s = pre +:+ sfx
        /\ exec r sfx None = (rest, g) :: l
        /\ mo = MatchObject (i + String.length pre)
                  (i + String.length pre
                   + (String.length sfx - String.length rest)) g
        /\ forall pre' sfx', s = pre' +:+ sfx' ->
             (String.length pre' < String.length pre)%nat ->
             exec r sfx' None = []
  | None => forall pre sfx, s = pre +:+ sfx -> exec r sfx None = []
  end.
Proof.
  revert i. induction s as [|c s IH]; intros i; simpl; unfold match_at.
  - destruct (exec r "" None) as [|[rest g] l] eqn:E.
    + intros [|x pre] sfx H; app_simpl; [now subst | discriminate].
    + exists "", "", rest, g, l. app_simpl. simpl.
      split; [reflexivity|]. split; [assumption|]. split; [f_equal; lia|].
      intros ? ? _ Hlt. simpl in Hlt. lia.
  - destruct (exec r (String c s) None) as [|[rest g] l] eqn:E.
    + specialize (IH (S i)). destruct (search_from r s (S i)) as [mo|].
      * destruct IH as (pre & sfx & rest & g & l & -> & Hex & -> & Hmin).
        exists (String c pre), sfx, rest, g, l. app_simpl. simpl.
        split; [reflexivity|]. split; [assumption|]. split; [f_equal; lia|].
        intros [|x pre'] sfx' H Hlt; app_simpl.
        -- now subst.
        -- injection H as -> H. apply (Hmin _ _ H). simpl in Hlt. lia.
      * intros [|x pre] sfx H; app_simpl; [now subst|].
        injection H as -> H. now apply IH with (pre := pre).
    + exists "", (String c s), rest, g, l. app_simpl. simpl.
      split; [reflexivity|]. split; [assumption|]. split; [f_equal; lia|].
      intros ? ? _ Hlt. simpl in Hlt. lia.
Qed.

Section UnitPattern.

(** The alternation of a unit and the letter each alternative starts
    with. *)
Variable alts : regex.
Variable u : ascii.
Variable tokens : list string.

Hypothesis u_not_decimal : Text.isdecimal u = false.
Hypothesis u_not_space : Text.isspace u = false.
Hypothesis alts_group_free : group_free alts = true.
Hypothesis alts_complete : forall s g, exec alts (String u s) g <> [].
Hypothesis alts_sound :
  forall s g m, In m (exec alts s g) -> exists s', s = String u s'.
Hypothesis tokens_sound :
  forall tok, In tok tokens -> exists tl, tok = String u tl.
Hypothesis tokens_complete : In (String u "") tokens.

Lemma stops_digit_after (ws post : string) :
  Text.all Text.isspace ws = true -> stops Digit (ws +:+ String u post).
Proof.
  destruct ws as [|c ws]; app_simpl; simpl; [easy|].
  intros H. apply andb_true_iff in H as [H _]. now apply space_not_decimal.
Qed.

(** Digits, blanks and the unit letter at the start of the text: the
    pattern matches there, and group 1 is the whole run of digits. *)
Lemma match_here (ds ws post : string) :
  ds <> "" -> Text.all Text.isdecimal ds = true ->
  Text.all Text.isspace ws = true ->
  exists rest l,
    exec (unit_pattern alts) (ds +:+ ws +:+ String u post) None
    = (rest, Some ds) :: l.
Proof.
  intros Hne Hds Hws.
  destruct ds as [|d ds]; [easy|]. simpl in Hds.
  apply andb_true_iff in Hds as [Hd Hds].
  destruct (star_run Digit ds (ws +:+ String u post) Hds
              (stops_digit_after ws post Hws)) as [l1 E1].
  destruct (star_run Space ws (String u post) Hws u_not_space) as [l2 E2].
  destruct (exec alts (String u post) (Some (String d ds)))
    as [|x l3] eqn:E3; [now apply alts_complete in E3|].
  assert (exists y l4, exec (Opt (Chr "s")) (fst x) (snd x) = y :: l4)
    as (y & l4 & E4).
  { apply exec_opt_first. }
  destruct (exec_seq_first alts (Opt (Chr "s")) _ _ _ _ _ _ E3 E4)
    as [l5 E5].
  assert (snd y = Some (String d ds)) as Hy.
  { apply (exec_group_free (Seq alts (Opt (Chr "s"))) (String u post)).
    - simpl. now rewrite alts_group_free.
    - rewrite E5. now left. }
  assert (exists lG,
             exec (Group (Plus Digit))
               (String d ds +:+ ws +:+ String u post) None
             = (ws +:+ String u post, Some (String d ds)) :: lG)
    as [lG EG].
  { rewrite append_cons. cbn [exec accepts]. rewrite Hd, E1.
    cbn [map fst]. rewrite <- (append_cons d ds), consumed_append.
    now eexists. }
  assert (exists lS,
             exec (Star Space) (ws +:+ String u post) (Some (String d ds))
             = (String u post, Some (String d ds)) :: lS) as [lS ES].
  { cbn [exec]. rewrite E2. cbn [map]. now eexists. }
  destruct (exec_seq_first (Star Space) (Seq alts (Opt (Chr "s")))
              _ _ _ _ _ _ ES E5) as [l6 E6].
  destruct (exec_seq_first (Group (Plus Digit))
              (Seq (Star Space) (Seq alts (Opt (Chr "s"))))
              _ _ _ _ _ _ EG E6) as [l7 E7].
  unfold unit_pattern. rewrite E7.
  destruct y as [ry gy]. simpl in Hy. subst gy. now eexists _, _.
Qed.

(** Every way the pattern matches is digits, blanks and the unit
    letter, group 1 holding the digits. *)
Lemma exec_sound (s : string) m :
  In m (exec (unit_pattern alts) s None) ->
  exists ds ws post,
    s = ds +:+ ws +:+ String u post
    /\ ds <> "" /\ Text.all Text.isdecimal ds = true
    /\ Text.all Text.isspace ws = true
    /\ snd m = Some ds.
Proof.
  unfold unit_pattern. intros Hin.
  apply exec_seq_In in Hin as (x1 & H1 & Hin).
  apply exec_seq_In in Hin as (x2 & H2 & Hin).
  assert (snd m = snd x2) as Hg.
  { apply (exec_group_free (Seq alts (Opt (Chr "s"))) x2.1); [|exact Hin].
    simpl. now rewrite alts_group_free. }
  apply exec_seq_In in Hin as (x3 & H3 & _).
  apply alts_sound in H3 as [post Hpost].
  simpl in H2. apply in_map_iff in H2 as (r2 & <- & H2).
  apply star_In in H2 as (ws & Hws & Hall). simpl in *.
  apply in_map_iff in H1 as (y & <- & H1). simpl in *.
  destruct s as [|d s]; [easy|].
  destruct (Text.isdecimal d) eqn:Hd; [|easy].
  apply in_map_iff in H1 as (r1 & <- & H1).
  apply star_In in H1 as (ds & Hds & Hdall). simpl in *.
  exists (String d ds), ws, post. subst. app_simpl.
  repeat split; try easy.
  - simpl. now rewrite Hd.
  - rewrite Hg. f_equal. rewrite <- (append_cons d ds).
    apply consumed_append.
Qed.

(** An occurrence in the worded sense is a place where the pattern
    matches, with the same digits. *)
Lemma occurs_match (t : string) (i : nat) (ds : string) :
  occurs_at tokens t i ds ->
  exists pre sfx rest l,
    t = pre +:+ sfx /\ String.length pre = i
    /\ exec (unit_pattern alts) sfx None = (rest, Some ds) :: l.
Proof.
  intros (pre & ws & tok & post & -> & Hi & Hne & Hds & Hws & Htok).
  destruct (tokens_sound _ Htok) as [tl ->].
  destruct (match_here ds ws (tl +:+ post) Hne Hds Hws) as (rest & l & E).
  exists pre, (ds +:+ ws +:+ String u (tl +:+ post)), rest, l.
  now rewrite append_cons.
Qed.

(** [re.search] with a unit pattern finds exactly the first occurrence. *)
Lemma search_unit_spec (t : string) :
  match search (unit_pattern alts) t with
  | Some mo =>
      exists ds, group1 mo = Some ds
                 /\ occurs_at tokens t (m_start mo) ds
                 /\ forall j d, occurs_at tokens t j d -> (m_start mo <= j)%nat
  | None => absent tokens t
  end.
Proof.
  unfold search. pose proof (search_from_spec (unit_pattern alts) t 0) as H.
  destruct (search_from (unit_pattern alts) t 0) as [mo|].
  - destruct H as (pre & sfx & rest & g & l & -> & Hex & -> & Hmin).
    destruct (exec_sound sfx (rest, g)) as (ds & ws & post & -> & Hne & Hds & Hws & Hg).
    { rewrite Hex. now left. }
    simpl in Hg. subst g. exists ds. simpl. split; [reflexivity|]. split.
    + exists pre, ws, (String u ""), post. app_simpl. now repeat split.
    + intros j d Hocc. apply occurs_match in Hocc
        as (pre' & sfx' & rest' & l' & E & <- & Hex').
      destruct (Nat.le_gt_cases (String.length pre) (String.length pre'))
        as [|Hlt]; [assumption|].
      rewrite (Hmin _ _ E Hlt) in Hex'. discriminate.
  - intros i d Hocc. apply occurs_match in Hocc
      as (pre' & sfx' & rest' & l' & E & _ & Hex').
    rewrite (H _ _ E) in Hex'. discriminate.
Qed.

Lemma first_occurrence_unique (t d1 d2 : string) :
  first_occurrence tokens t d1 -> first_occurrence tokens t d2 -> d1 = d2.
Proof.
  intros (i1 & H1 & M1) (i2 & H2 & M2).
  pose proof (M1 _ _ H2). pose proof (M2 _ _ H1).
  assert (i1 = i2) as -> by lia.
  apply occurs_match in H1 as (p1 & s1 & r1 & l1 & -> & L1 & E1).
  apply occurs_match in H2 as (p2 & s2 & r2 & l2 & E & L2 & E2).
  apply append_inv_length in E as [_ ->]; [|congruence].
  rewrite E1 in E2. congruence.
Qed.

(** Every text gives the unit one quantity. *)
Lemma quantity_exists (t : string) : exists q, quantity tokens t q.
Proof.
  pose proof (search_unit_spec t) as H.
  destruct (search (unit_pattern alts) t) as [mo|].
  - destruct H as (ds & _ & Hocc & Hmin).
    exists (digits_value 0 ds). right. exists ds. split; [|reflexivity].
    now exists (m_start mo).
  - exists 0. now left.
Qed.

Lemma quantity_unique (t : string) (q1 q2 : Z) :
  quantity tokens t q1 -> quantity tokens t q2 -> q1 = q2.
Proof.
  intros [[A1 ->]|(d1 & F1 & <-)] [[A2 ->]|(d2 & F2 & <-)]; try reflexivity.
  - destruct F2 as (i & H & _). now apply A1 in H.
  - destruct F1 as (i & H & _). now apply A2 in H.
  - now rewrite (first_occurrence_unique _ _ _ F1 F2).
Qed.

(** What the parser reads off the match is the worded quantity. *)
Lemma quantity_search (L : nat) (t : string) (q : Z) :
  quantity tokens t q -> within_limit L tokens t ->
  TimeParser.quantity L (search (unit_pattern alts) t) = Ok q.
Proof.
  intros Hq Hlim. pose proof (search_unit_spec t) as H.
  destruct (search (unit_pattern alts) t) as [mo|]; simpl.
  - destruct H as (ds & -> & Hocc & Hmin).
    assert (first_occurrence tokens t ds) as Hfirst by now exists (m_start mo).
    assert (q = digits_value 0 ds) as ->.
    { apply (quantity_unique t); [assumption|]. right. now exists ds. }
    destruct Hocc as (_ & _ & _ & _ & _ & _ & Hne & Hds & _).
    unfold int. rewrite Hds. simpl.
    destruct ds as [|c ds]; [easy|]. simpl.
    destruct (Hlim _ Hfirst) as [->|Hle]; [reflexivity|].
    simpl in Hle. apply Nat.ltb_ge in Hle. simpl. rewrite Hle.
    now rewrite andb_false_r.
  - destruct Hq as [[_ ->]|(d & (i & Hocc & _) & _)]; [reflexivity|].
    now apply H in Hocc.
Qed.

(** The quantity of the unit is what the match holds. *)
Lemma search_quantity (t : string) :
  quantity tokens t
    match search (unit_pattern alts) t with
    | Some mo =>
        match group1 mo with
        | Some ds => digits_value 0 ds
        | None => 0
        end
    | None => 0
    end.
Proof.
  pose proof (search_unit_spec t) as H.
  destruct (search (unit_pattern alts) t) as [mo|]; [|now left].
  destruct H as (ds & -> & Hocc & Hmin).
  right. exists ds. split; [|reflexivity]. now exists (m_start mo).
Qed.

Lemma within_limit_search (L : nat) (t : string) :
  match search (unit_pattern alts) t with
  | Some mo =>
      match group1 mo with
      | Some ds => L = 0%nat \/ (String.length ds <= L)%nat
      | None => True
      end
  | None => True
  end ->
  within_limit L tokens t.
Proof.
  intros H ds Hfirst. pose proof (search_unit_spec t) as Hs.
  destruct (search (unit_pattern alts) t) as [mo|].
  - destruct Hs as (ds' & E & Hocc & Hmin). rewrite E in H.
    assert (first_occurrence tokens t ds') as Hfirst' by now exists (m_start mo).
    now rewrite (first_occurrence_unique _ _ _ Hfirst Hfirst').
  - destruct Hfirst as (i & Hocc & _). now apply Hs in Hocc.
Qed.

(** Whatever follows digits, blanks and the unit letter, the search
    stops there. *)
Lemma search_here (ds ws post : string) :
  ds <> "" -> Text.all Text.isdecimal ds = true ->
  Text.all Text.isspace ws = true ->
  exists mo, search (unit_pattern alts) (ds +:+ ws +:+ String u post) = Some mo
             /\ m_start mo = 0%nat /\ group1 mo = Some ds.
Proof.
  intros Hne Hds Hws.
  destruct (match_here ds ws post Hne Hds Hws) as (rest & l & E).
  unfold search.
  assert (match_at (unit_pattern alts) (ds +:+ ws +:+ String u post) 0
          = Some (MatchObject 0
                    (0 + (String.length (ds +:+ ws +:+ String u post)
                          - String.length rest)) (Some ds))) as EM.
  { unfold match_at. now rewrite E. }
  eexists. split; [apply search_from_first, EM | split; reflexivity].
Qed.

End UnitPattern.

(** The two patterns of the parser are instances of the shape. *)

Lemma hour_pattern_shape : hour_pattern = unit_pattern hour_alts.
Proof. reflexivity. Qed.

Lemma minute_pattern_shape : minute_pattern = unit_pattern minute_alts.
Proof. reflexivity. Qed.

Lemma lit_In (p s : string) (g : option string) m :
  In m (exec (Lit p) s g) -> s = p +:+ fst m.
Proof.
  cbn [exec]. destruct (Text.strip_prefix p s) as [r|] eqn:E; [|easy].
  intros [<-|[]]. now apply strip_prefix_Some.
Qed.

Lemma alt3_complete (p1 p2 : string) (c : ascii) (s : string) g :
  exec (Alt (Lit p1) (Alt (Lit p2) (Lit (String c "")))) (String c s) g <> [].
Proof.
  cbn [exec].
  replace (Text.strip_prefix (String c "") (String c s)) with (Some s)
    by (symmetry; apply (strip_prefix_append (String c "") s)).
  intros E. apply app_eq_nil in E as [_ E]. apply app_eq_nil in E as [_ E].
  discriminate.
Qed.

Lemma alt3_sound (c : ascii) (t1 t2 : string) (s : string) g m :
  In m (exec (Alt (Lit (String c t1)) (Alt (Lit (String c t2)) (Lit (String c ""))))
          s g) ->
  exists s', s = String c s'.
Proof.
  cbn [exec]. rewrite !in_app_iff.
  intros [H|[H|H]]; apply lit_In in H; rewrite H, append_cons; now eexists.
Qed.

Lemma tokens_start (c : ascii) (tokens : list string) :
  forallb (fun tok => match tok with
                      | String x _ => Ascii.eqb x c
                      | EmptyString => false
                      end) tokens = true ->
  forall tok, In tok tokens -> exists tl, tok = String c tl.
Proof.
  intros H tok Hin. rewrite forallb_forall in H. specialize (H _ Hin).
  destruct tok as [|x tl]; [discriminate|].
  apply Ascii.eqb_eq in H as ->. now eexists.
Qed.

Ltac unit_side :=
  first [ reflexivity
        | intros; apply alt3_complete
        | intros ? ? ?; apply alt3_sound
        | apply tokens_start; reflexivity
        | simpl; tauto ].

Lemma hour_search_spec (t : string) :
  match search hour_pattern t with
  | Some mo =>
      exists ds, group1 mo = Some ds
                 /\ occurs_at hour_tokens t (m_start mo) ds
                 /\ forall j d, occurs_at hour_tokens t j d -> (m_start mo <= j)%nat
  | None => absent hour_tokens t
  end.
Proof. apply (search_unit_spec hour_alts "h" hour_tokens); unit_side. Qed.

Lemma minute_search_spec (t : string) :
  match search minute_pattern t with
  | Some mo =>
      exists ds, group1 mo = Some ds
                 /\ occurs_at minute_tokens t (m_start mo) ds
                 /\ forall j d, occurs_at minute_tokens t j d -> (m_start mo <= j)%nat
  | None => absent minute_tokens t
  end.
Proof. apply (search_unit_spec minute_alts "m" minute_tokens); unit_side. Qed.

Lemma hour_quantity_search (L : nat) (t : string) (q : Z) :
  quantity hour_tokens t q -> within_limit L hour_tokens t ->
  TimeParser.quantity L (search hour_pattern t) = Ok q.
Proof. apply (quantity_search hour_alts "h" hour_tokens); unit_side. Qed.

Lemma minute_quantity_search (L : nat) (t : string) (q : Z) :
  quantity minute_tokens t q -> within_limit L minute_tokens t ->
  TimeParser.quantity L (search minute_pattern t) = Ok q.
Proof. apply (quantity_search minute_alts "m" minute_tokens); unit_side. Qed.

Lemma hour_search_quantity (t : string) :
  quantity hour_tokens t
    match search hour_pattern t with
    | Some mo => match group1 mo with Some ds => digits_value 0 ds | None => 0 end
    | None => 0
    end.
Proof. apply (search_quantity hour_alts "h" hour_tokens); unit_side. Qed.

Lemma minute_search_quantity (t : string) :
  quantity minute_tokens t
    match search minute_pattern t with
    | Some mo => match group1 mo with Some ds => digits_value 0 ds | None => 0 end
    | None => 0
    end.
Proof. apply (search_quantity minute_alts "m" minute_tokens); unit_side. Qed.

Lemma hour_within_limit (L : nat) (t : string) :
  match search hour_pattern t with
  | Some mo =>
      match group1 mo with
      | Some ds => L = 0%nat \/ (String.length ds <= L)%nat
      | None => True
      end
  | None => True
  end ->
  within_limit L hour_tokens t.
Proof. apply (within_limit_search hour_alts "h" hour_tokens); unit_side. Qed.

Lemma minute_within_limit (L : nat) (t : string) :
  match search minute_pattern t with
  | Some mo =>
      match group1 mo with
      | Some ds => L = 0%nat \/ (String.length ds <= L)%nat
      | None => True
      end
  | None => True
  end ->
  within_limit L minute_tokens t.
Proof. apply (within_limit_search minute_alts "m" minute_tokens); unit_side. Qed.

Lemma hour_quantity_exists (t : string) : exists q, quantity hour_tokens t q.
Proof. apply (quantity_exists hour_alts "h" hour_tokens); unit_side. Qed.

Lemma minute_quantity_exists (t : string) : exists q, quantity minute_tokens t q.
Proof. apply (quantity_exists minute_alts "m" minute_tokens); unit_side. Qed.

Lemma hour_first_unique (t d1 d2 : string) :
  first_occurrence hour_tokens t d1 -> first_occurrence hour_tokens t d2 -> d1 = d2.
Proof. apply (first_occurrence_unique hour_alts "h" hour_tokens); unit_side. Qed.

Lemma minute_first_unique (t d1 d2 : string) :
  first_occurrence minute_tokens t d1 -> first_occurrence minute_tokens t d2 ->
  d1 = d2.
Proof. apply (first_occurrence_unique minute_alts "m" minute_tokens); unit_side. Qed.

Lemma hour_quantity_unique (t : string) (q1 q2 : Z) :
  quantity hour_tokens t q1 -> quantity hour_tokens t q2 -> q1 = q2.
Proof. apply (quantity_unique hour_alts "h" hour_tokens); unit_side. Qed.

Lemma minute_quantity_unique (t : string) (q1 q2 : Z) :
  quantity minute_tokens t q1 -> quantity minute_tokens t q2 -> q1 = q2.
Proof. apply (quantity_unique minute_alts "m" minute_tokens); unit_side. Qed.

Lemma hour_search_here (ds ws post : string) :
  ds <> "" -> Text.all Text.isdecimal ds = true ->
  Text.all Text.isspace ws = true ->
  exists mo, search hour_pattern (ds +:+ ws +:+ String "h" post) = Some mo
             /\ m_start mo = 0%nat /\ group1 mo = Some ds.
Proof. apply (search_here hour_alts "h"); unit_side. Qed.

Lemma minute_search_here (ds ws post : string) :
  ds <> "" -> Text.all Text.isdecimal ds = true ->
  Text.all Text.isspace ws = true ->
  exists mo, search minute_pattern (ds +:+ ws +:+ String "m" post) = Some mo
             /\ m_start mo = 0%nat /\ group1 mo = Some ds.
Proof. apply (search_here minute_alts "m"); unit_side. Qed.

(** A run of decimal digits has a value that is not negative. *)
Lemma digits_value_nonneg (s : string) (acc : Z) :
  Text.all Text.isdecimal s = true -> 0 <= acc -> 0 <= digits_value acc s.
Proof.
  revert acc. induction s as [|c s IH]; intros acc Hs Hacc; simpl in *;
    [assumption|].
  apply andb_true_iff in Hs as [Hc Hs]. apply IH; [assumption|].
  unfold Text.isdecimal, Text.between in Hc.
  apply andb_true_iff in Hc as [Hc _]. apply Z.leb_le in Hc. lia.
Qed.

Lemma quantity_nonneg (tokens : list string) (t : string) (q : Z) :
  quantity tokens t q -> 0 <= q.
Proof.
  intros [[_ ->]|(ds & (i & Hocc & _) & <-)]; [lia|].
  destruct Hocc as (_ & _ & _ & _ & _ & _ & _ & Hds & _).
  now apply digits_value_nonneg.
Qed.

End PatternFacts.

(** ** parse_relative_time *)

Module DurationFacts.
Import Re TimeParser Datetime DurationSpec PatternFacts.

Lemma parse_relative_time_eq (L : nat) (clock : Z) (s : string) (H M : Z) :
  TimeParser.quantity L (search hour_pattern (normalized s)) = Ok H ->
  TimeParser.quantity L (search minute_pattern (normalized s)) = Ok M ->
  parse_relative_time L clock s
  = if (H =? 0) && (M =? 0)
    then Err (ValueError ("Could not parse duration: " +:+ normalized s))
    else bind (timedelta H M) (add (DateTime clock UTC)).
Proof.
  unfold parse_relative_time, normalized. intros -> ->. reflexivity.
Qed.

Lemma timedelta_add_ok (clock H M : Z) :
  in_range clock = true -> 0 <= H -> 0 <= M ->
  in_range (clock + span H M) = true ->
  bind (timedelta H M) (add (DateTime clock UTC))
  = Ok (DateTime (clock + span H M) UTC).
Proof.
  unfold in_range, MIN_WALL, MAX_WALL, span. intros Hc HH HM Hr.
  apply andb_true_iff in Hc as [Hc1 Hc2]. apply andb_true_iff in Hr as [Hr1 Hr2].
  apply Z.leb_le in Hc1, Hc2, Hr1, Hr2.
  unfold timedelta.
  set (us := (H * 3600 + M * 60) * 1000000) in *.
  assert (0 <= us <= 315537897599999999) as Hus by (unfold us; lia).
  assert (0 <= us / 86400000000 <= 999999999) as Hd.
  { split; [apply Z.div_pos; lia|].
    apply Z.le_trans with (315537897599999999 / 86400000000);
      [apply Z.div_le_mono; lia | vm_compute; discriminate]. }
  replace ((-999999999 <=? us / 86400000000) && (us / 86400000000 <=? 999999999))
    with true by (symmetry; apply andb_true_iff; split; apply Z.leb_le; lia).
  cbn [bind]. unfold add, in_range, MIN_WALL, MAX_WALL. cbn [wall tz].
  replace ((-62135596800000000 <=? clock + us) && (clock + us <=? 253402300799999999))
    with true by (symmetry; apply andb_true_iff; split; apply Z.leb_le; lia).
  reflexivity.
Qed.

(** Building the delta and adding it either works or overflows. *)
Lemma timedelta_add_cases (dt : datetime) (H M : Z) :
  (exists r, bind (timedelta H M) (add dt) = Ok r)
  \/ (exists msg, bind (timedelta H M) (add dt) = Err (OverflowError msg)).
Proof.
  unfold timedelta. destruct (_ && _); cbn [bind]; [|right; now eexists].
  unfold add. destruct (in_range _); [left | right]; now eexists.
Qed.

End DurationFacts.

Import Re TimeParser Datetime DurationSpec PatternFacts DurationFacts.

(** What the parser reads for a unit in a text that is already normalized. *)
Lemma read_hours (t : string) (q : Z) :
  match search hour_pattern t with
  | Some mo => match group1 mo with Some ds => digits_value 0 ds | None => 0 end
  | None => 0
  end = q ->
  quantity hour_tokens t q.
Proof. intros <-. apply hour_search_quantity. Qed.

Lemma read_minutes (t : string) (q : Z) :
  match search minute_pattern t with
  | Some mo => match group1 mo with Some ds => digits_value 0 ds | None => 0 end
  | None => 0
  end = q ->
  quantity minute_tokens t q.
Proof. intros <-. apply minute_search_quantity. Qed.

Ltac read_text :=
  match goal with
  | |- quantity hour_tokens _ _ => apply read_hours; vm_compute; reflexivity
  | |- quantity minute_tokens _ _ => apply read_minutes; vm_compute; reflexivity
  | |- within_limit _ hour_tokens _ => apply hour_within_limit; vm_compute; lia
  | |- within_limit _ minute_tokens _ => apply minute_within_limit; vm_compute; lia
  end.

Lemma parse_relative_time_general (L : nat) (clock : Z) (s : string) (H M : Z) :
  in_range clock = true ->
  quantity hour_tokens (normalized s) H ->
  quantity minute_tokens (normalized s) M ->
  ~ (H = 0 /\ M = 0) ->
  within_limit L hour_tokens (normalized s) ->
  within_limit L minute_tokens (normalized s) ->
  in_range (clock + span H M) = true ->
  parse_relative_time L clock s = Ok (DateTime (clock + span H M) UTC).
Proof.
  intros Hc HH HM Hnz LH LM Hr.
  rewrite (parse_relative_time_eq L clock s H M)
    by (now apply hour_quantity_search || now apply minute_quantity_search).
  destruct ((H =? 0) && (M =? 0)) eqn:Z0.
  - apply andb_true_iff in Z0 as [Z1 Z2]. apply Z.eqb_eq in Z1, Z2. tauto.
  - apply timedelta_add_ok; eauto using quantity_nonneg.
Qed.

(** C1, as amended.  Whenever the hour pattern and the minute pattern
    give the normalized text the quantities [H] and [M] (a unit without
    match counting as 0), not both zero, the digit runs are within the
    interpreter's integer conversion limit and the clock reading plus [H]
    hours and [M] minutes is still a datetime (not past
    9999-12-31T23:59:59.999999),
    [parse_relative_time] returns exactly that reading plus [H] hours and
    [M] minutes, in UTC, whatever the requester's timezone is.  So
    "2 hours 15 minutes" gives now + 2h15m and "1h 30m" gives now + 1h30m. *)
Theorem parse_relative_time_adds_duration (L : nat) (clock : Z) :
  valid_limit L ->
  in_range clock = true ->
  (forall s H M,
      quantity hour_tokens (normalized s) H ->
      quantity minute_tokens (normalized s) M ->
      ~ (H = 0 /\ M = 0) ->
      within_limit L hour_tokens (normalized s) ->
      within_limit L minute_tokens (normalized s) ->
      in_range (clock + span H M) = true ->
      parse_relative_time L clock s = Ok (DateTime (clock + span H M) UTC))
  /\ (in_range (clock + span 2 15) = true ->
      parse_relative_time L clock "2 hours 15 minutes"
      = Ok (DateTime (clock + span 2 15) UTC))
  /\ (in_range (clock + span 1 30) = true ->
      parse_relative_time L clock "1h 30m"
      = Ok (DateTime (clock + span 1 30) UTC)).
Proof.
  unfold valid_limit. intros HL Hc. split; [|split].
  - intros s H M. now apply parse_relative_time_general.
  - intros Hr. apply parse_relative_time_general; try assumption;
      try read_text. lia.
  - intros Hr. apply parse_relative_time_general; try assumption;
      try read_text. lia.
Qed.

Lemma parse_relative_time_adds_duration_witness :
  parse_relative_time 4300 1700000000000000 "  3 Hours 5 min "
  = Ok (DateTime (1700000000000000 + span 3 5) UTC)
  /\ parse_relative_time 4300 1700000000000000 "2 hours 15 minutes"
     = Ok (DateTime (1700000000000000 + span 2 15) UTC)
  /\ parse_relative_time 4300 1700000000000000 "1h 30m"
     = Ok (DateTime (1700000000000000 + span 1 30) UTC).
Proof.
  destruct (parse_relative_time_adds_duration 4300 1700000000000000
              ltac:(unfold valid_limit; lia) eq_refl)
    as (Hgen & H1 & H2).
  split; [|split].
  - apply Hgen; try read_text; [lia | reflexivity].
  - apply H1. reflexivity.
  - apply H2. reflexivity.
Defined.

(** C1 as stated fails: in "99999999 hours" the hour pattern matches with
    quantity 99999999 and the minute pattern does not match, yet the call
    does not return the clock reading plus 99999999 hours: the sum lies
    past year 9999 and adding it raises [OverflowError]. *)
Lemma parse_relative_time_overflows :
  in_range 1700000000000000 = true
  /\ quantity hour_tokens (normalized "99999999 hours") 99999999
  /\ quantity minute_tokens (normalized "99999999 hours") 0
  /\ parse_relative_time 4300 1700000000000000 "99999999 hours"
     = Err (OverflowError "date value out of range")
  /\ parse_relative_time 4300 1700000000000000 "99999999 hours"
     <> Ok (DateTime (1700000000000000 + span 99999999 0) UTC).
Proof.
  split; [reflexivity|]. split; [read_text|]. split; [read_text|].
  split; [vm_compute; reflexivity | vm_compute; discriminate].
Qed.

Lemma parse_relative_time_unparseable (L : nat) (clock : Z) (s : string) :
  within_limit L hour_tokens (normalized s) ->
  within_limit L minute_tokens (normalized s) ->
  ((exists e, parse_relative_time L clock s = Err e /\ UnparseableDuration e)
   <-> quantity hour_tokens (normalized s) 0
       /\ quantity minute_tokens (normalized s) 0).
Proof.
  intros LH LM. split.
  - intros (e & Hp & (t & ->)).
    destruct (hour_quantity_exists (normalized s)) as [H HH].
    destruct (minute_quantity_exists (normalized s)) as [M HM].
    rewrite (parse_relative_time_eq L clock s H M) in Hp
      by (now apply hour_quantity_search || now apply minute_quantity_search).
    destruct ((H =? 0) && (M =? 0)) eqn:Z0.
    + apply andb_true_iff in Z0 as [Z1 Z2]. apply Z.eqb_eq in Z1, Z2.
      now subst.
    + destruct (timedelta_add_cases (DateTime clock UTC) H M)
        as [[r E]|[msg E]]; rewrite E in Hp; discriminate.
  - intros [HH HM].
    rewrite (parse_relative_time_eq L clock s 0 0)
      by (now apply hour_quantity_search || now apply minute_quantity_search).
    simpl. eexists. split; [reflexivity|]. now eexists.
Qed.

(** C4, as amended.  With the digit runs within the interpreter's integer
    conversion limit, [parse_relative_time] fails with the "Could not
    parse duration" error exactly when the hour quantity and the minute
    quantity are both absent or zero; "invalid duration" and
    "0 hours 0 minutes" fail that way.  When a quantity is not zero the
    call succeeds provided the clock reading plus the duration is still a
    datetime (not past 9999-12-31T23:59:59.999999). *)
Theorem parse_relative_time_fails_iff (L : nat) (clock : Z) :
  valid_limit L ->
  in_range clock = true ->
  (forall s,
      within_limit L hour_tokens (normalized s) ->
      within_limit L minute_tokens (normalized s) ->
      ((exists e, parse_relative_time L clock s = Err e /\ UnparseableDuration e)
       <-> quantity hour_tokens (normalized s) 0
           /\ quantity minute_tokens (normalized s) 0))
  /\ (forall s H M,
         quantity hour_tokens (normalized s) H ->
         quantity minute_tokens (normalized s) M ->
         ~ (H = 0 /\ M = 0) ->
         within_limit L hour_tokens (normalized s) ->
         within_limit L minute_tokens (normalized s) ->
         in_range (clock + span H M) = true ->
         exists dt, parse_relative_time L clock s = Ok dt)
  /\ (exists e, parse_relative_time L clock "invalid duration" = Err e
                /\ UnparseableDuration e)
  /\ (exists e, parse_relative_time L clock "0 hours 0 minutes" = Err e
                /\ UnparseableDuration e).
Proof.
  unfold valid_limit. intros HL Hc. split; [|split; [|split]].
  - intros s. apply parse_relative_time_unparseable.
  - intros s H M HH HM Hnz LH LM Hr. exists (DateTime (clock + span H M) UTC).
    now apply parse_relative_time_general.
  - apply parse_relative_time_unparseable; try read_text. split; read_text.
  - apply parse_relative_time_unparseable; try read_text. split; read_text.
Qed.

Lemma parse_relative_time_fails_iff_witness :
  ((exists e, parse_relative_time 4300 1700000000000000 "soon" = Err e
              /\ UnparseableDuration e)
   <-> quantity hour_tokens (normalized "soon") 0
       /\ quantity minute_tokens (normalized "soon") 0)
  /\ (exists dt, parse_relative_time 4300 1700000000000000 "90 min" = Ok dt).
Proof.
  destruct (parse_relative_time_fails_iff 4300 1700000000000000
              ltac:(unfold valid_limit; lia) eq_refl)
    as (Hiff & Hok & _ & _).
  split.
  - apply Hiff; read_text.
  - apply (Hok "90 min" 0 90); try read_text; [lia | reflexivity].
Defined.

(** C4 as stated fails: in "9999999999 minutes" the minute quantity is
    9999999999, not zero, yet the call does not succeed: the sum lies past
    year 9999 and adding it raises [OverflowError]. *)
Lemma parse_relative_time_nonzero_fails :
  in_range 1700000000000000 = true
  /\ quantity hour_tokens (normalized "9999999999 minutes") 0
  /\ quantity minute_tokens (normalized "9999999999 minutes") 9999999999
  /\ parse_relative_time 4300 1700000000000000 "9999999999 minutes"
     = Err (OverflowError "date value out of range")
  /\ ~ (exists dt,
           parse_relative_time 4300 1700000000000000 "9999999999 minutes" = Ok dt).
Proof.
  split; [reflexivity|]. split; [read_text|]. split; [read_text|].
  split; [vm_compute; reflexivity|].
  intros [dt H]. vm_compute in H. discriminate.
Qed.



(** C10.  Nothing in the unit patterns asks for the end of a word: after
    digits and optional whitespace any text that starts with a unit token
    is taken as that unit, whatever follows.  "months" is no token of
    either unit, yet "10 months" is read as 10 minutes and the call
    succeeds with now + 10 minutes. *)
Theorem unit_patterns_not_word_bounded :
  (forall ds ws tok w,
      ds <> "" -> Text.all Text.isdecimal ds = true ->
      Text.all Text.isspace ws = true -> In tok hour_tokens ->
      exists mo, search hour_pattern (ds +:+ ws +:+ tok +:+ w) = Some mo
                 /\ m_start mo = 0%nat /\ group1 mo = Some ds)
  /\ (forall ds ws tok w,
         ds <> "" -> Text.all Text.isdecimal ds = true ->
         Text.all Text.isspace ws = true -> In tok minute_tokens ->
         exists mo, search minute_pattern (ds +:+ ws +:+ tok +:+ w) = Some mo
                    /\ m_start mo = 0%nat /\ group1 mo = Some ds)
  /\ ~ In "months" (hour_tokens ++ minute_tokens)
  /\ (forall L clock,
         valid_limit L -> in_range clock = true ->
         in_range (clock + span 0 10) = true ->
         parse_relative_time L clock "10 months"
         = Ok (DateTime (clock + span 0 10) UTC)).
Proof.
  split; [|split; [|split]].
  - intros ds ws tok w Hne Hds Hws Htok.
    destruct (tokens_start "h" hour_tokens eq_refl tok Htok) as [tl ->].
    rewrite append_cons. now apply hour_search_here.
  - intros ds ws tok w Hne Hds Hws Htok.
    destruct (tokens_start "m" minute_tokens eq_refl tok Htok) as [tl ->].
    rewrite append_cons. now apply minute_search_here.
  - simpl. intros H. repeat destruct H as [H|H]; try discriminate. exact H.
  - unfold valid_limit. intros L clock HL Hc Hr.
    apply parse_relative_time_general; try assumption; try read_text. lia.
Qed.

Lemma unit_patterns_not_word_bounded_witness :
  (exists mo, search hour_pattern ("3" +:+ " " +:+ "hr" +:+ "ubarb") = Some mo
              /\ m_start mo = 0%nat /\ group1 mo = Some "3")
  /\ (exists mo, search minute_pattern ("10" +:+ " " +:+ "m" +:+ "onths") = Some mo
                 /\ m_start mo = 0%nat /\ group1 mo = Some "10")
  /\ parse_relative_time 4300 1700000000000000 "10 months"
     = Ok (DateTime (1700000000000000 + span 0 10) UTC).
Proof.
  destruct unit_patterns_not_word_bounded as (Hh & Hm & _ & Hp).
  split; [|split].
  - apply Hh; [discriminate | reflexivity | reflexivity | simpl; tauto].
  - apply Hm; [discriminate | reflexivity | reflexivity | simpl; tauto].
  - apply Hp; [unfold valid_limit; lia | reflexivity | reflexivity].
Defined.

(** ** The float timestamp *)

Module FloatFacts.
Import Float.

Lemma round_half_even_bounds (n d : Z) :
  0 <= n -> 0 < d ->
  n / d <= round_half_even n d <= n / d + 1
  /\ (round_half_even n d = n / d + 1 -> d <= 2 * (n mod d)).
Proof.
  intros Hn Hd. unfold round_half_even. cbv zeta.
  destruct (2 * (n mod d) <? d) eqn:E1; [split; lia|].
  apply Z.ltb_ge in E1.
  destruct (d <? 2 * (n mod d)); [split; lia|].
  destruct (Z.even (n / d)); split; lia.
Qed.

(** With at least 19 binary places, rounding the scaled quotient never
    reaches the next whole second. *)
Lemma rounded_seconds (n P : Z) :
  0 <= n -> 524288 <= P ->
  round_half_even (n * P) 1000000 / P = n / 1000000.
Proof.
  intros Hn HP.
  destruct (round_half_even_bounds (n * P) 1000000 ltac:(nia) ltac:(lia))
    as [[Hlo Hhi] Hup].
  set (m := round_half_even (n * P) 1000000) in *.
  pose proof (Z.div_mod n 1000000 ltac:(lia)) as En.
  pose proof (Z.mod_pos_bound n 1000000 ltac:(lia)) as Hf.
  pose proof (Z.div_mod (n * P) 1000000 ltac:(lia)) as Eq.
  pose proof (Z.mod_pos_bound (n * P) 1000000 ltac:(lia)) as Hr.
  set (S := n / 1000000) in *. set (f := n mod 1000000) in *.
  set (q := (n * P) / 1000000) in *. set (r := (n * P) mod 1000000) in *.
  assert (S * P <= q) as Hq1 by nia.
  assert (q < S * P + P) as Hq2 by nia.
  assert (m < S * P + P) as Hm.
  { destruct (Z.eq_dec m (q + 1)) as [E|E]; [|lia].
    specialize (Hup E).
    destruct (Z_lt_le_dec (q + 1) (S * P + P)) as [|Hge]; [lia|].
    exfalso. assert ((1000000 - f) * P <= 500000) by nia. nia. }
  symmetry. apply (Z.div_unique m P S (m - S * P)); lia.
Qed.

Lemma ilog2_quot_seconds (n : Z) :
  0 < n < 2 ^ 34 * 1000000 -> ilog2_quot n 1000000 <= 33.
Proof.
  intros [Hpos Hlt]. unfold ilog2_quot. cbv zeta.
  change (Z.log2 1000000) with 19.
  assert (Z.log2 n < 54) as Hlog.
  { apply Z.log2_lt_pow2; [assumption|].
    apply Z.lt_le_trans with (2 ^ 34 * 1000000); [assumption|].
    vm_compute. discriminate. }
  destruct (Z_le_gt_dec (Z.log2 n - 19) 33) as [Hk|Hk].
  - destruct (if 0 <=? Z.log2 n - 19 then _ else _); lia.
  - assert (Z.log2 n - 19 = 34) as -> by lia.
    change (0 <=? 34) with true. cbv iota.
    replace (1000000 * 2 ^ 34 <=? n) with false; [lia|].
    symmetry. apply Z.leb_gt. lia.
Qed.

(** Within 2^34 seconds of the epoch the float keeps the whole seconds:
    its integer part is the count of microseconds divided by [10 ^ 6],
    towards zero. *)
Lemma to_int_true_divide (a : Z) :
  Z.abs a < 2 ^ 34 * 1000000 ->
  to_int (true_divide a 1000000) = Z.quot a 1000000.
Proof.
  intros Ha. unfold true_divide.
  destruct (a =? 0) eqn:E0.
  - apply Z.eqb_eq in E0 as ->. reflexivity.
  - apply Z.eqb_neq in E0. cbv zeta.
    pose proof (ilog2_quot_seconds (Z.abs a) ltac:(lia)) as Hk.
    set (e := ilog2_quot (Z.abs a) 1000000 - 52) in *.
    assert (e <= -19) as He by lia.
    replace (0 <=? e) with false by (symmetry; apply Z.leb_gt; lia).
    unfold to_int. cbn [exponent mantissa].
    replace (0 <=? e) with false by (symmetry; apply Z.leb_gt; lia).
    assert (524288 <= 2 ^ (- e)) as HP.
    { change 524288 with (2 ^ 19). apply Z.pow_le_mono_r; lia. }
    pose proof (rounded_seconds (Z.abs a) (2 ^ (- e)) ltac:(lia) HP) as Hm.
    destruct (round_half_even_bounds (Z.abs a * 2 ^ (- e)) 1000000
                ltac:(nia) ltac:(lia)) as [[Hlo _] _].
    assert (0 <= Z.abs a * 2 ^ (- e) / 1000000)
      by (apply Z.div_pos; nia).
    set (m := round_half_even (Z.abs a * 2 ^ (- e)) 1000000) in *.
    destruct (Z_lt_le_dec a 0) as [Hneg|Hpos].
    + rewrite (Z.sgn_neg a Hneg).
      replace (-1 * m) with (- m) by lia.
      rewrite Z.quot_opp_l by lia.
      rewrite (Z.quot_div_nonneg m) by lia. rewrite Hm.
      replace a with (- Z.abs a) at 2 by lia.
      rewrite Z.quot_opp_l by lia.
      now rewrite (Z.quot_div_nonneg (Z.abs a)) by lia.
    + rewrite (Z.sgn_pos a) by lia.
      replace (1 * m) with m by lia.
      rewrite (Z.quot_div_nonneg m) by lia. rewrite Hm.
      replace (Z.abs a) with a by lia.
      now rewrite (Z.quot_div_nonneg a) by lia.
Qed.

End FloatFacts.

(** ** Decimal text *)

Module StrFacts.

Lemma to_int_not_nil (n : Z) :
  Z.to_int n <> Decimal.Pos Decimal.Nil /\ Z.to_int n <> Decimal.Neg Decimal.Nil.
Proof.
  destruct n as [|p|p]; simpl; split; try discriminate;
    intros [= E]; now apply DecimalPos.Unsigned.to_uint_nonnil in E.
Qed.

Lemma str_inj (n n' : Z) : str n = str n' -> n = n'.
Proof.
  unfold str. intros H. apply DecimalZ.to_int_inj.
  destruct (to_int_not_nil n) as [A1 A2].
  destruct (to_int_not_nil n') as [B1 B2].
  pose proof (NilZero.isi (Z.to_int n) A1 A2) as E1.
  pose proof (NilZero.isi (Z.to_int n') B1 B2) as E2.
  rewrite H in E1. rewrite E1 in E2. now injection E2.
Qed.

Lemma uint_not_colon (d : Decimal.uint) :
  Text.all Text.not_colon (NilEmpty.string_of_uint d) = true.
Proof. induction d; simpl; auto. Qed.

Lemma str_not_colon (n : Z) : Text.all Text.not_colon (str n) = true.
Proof.
  unfold str, NilZero.string_of_int, NilZero.string_of_uint.
  destruct (Z.to_int n) as [d|d]; destruct d; simpl;
    try reflexivity; apply uint_not_colon.
Qed.

(** Texts without a colon, each followed by a colon: the first colon
    tells where they end. *)
Lemma split_at_colon (a a' b b' : string) :
  Text.all Text.not_colon a = true -> Text.all Text.not_colon a' = true ->
  a +:+ String ":" b = a' +:+ String ":" b' -> a = a' /\ b = b'.
Proof.
  revert a'. induction a as [|x a IH]; intros [|y a'] Ha Ha' E; app_simpl;
    simpl in Ha, Ha'.
  - now injection E.
  - injection E as <- _. discriminate.
  - injection E as -> _. discriminate.
  - injection E as -> E.
    apply andb_true_iff in Ha as [_ Ha]. apply andb_true_iff in Ha' as [_ Ha'].
    destruct (IH _ Ha Ha' E) as [-> ->]. now split.
Qed.

Lemma append_inv_r (a a' b : string) : a +:+ b = a' +:+ b -> a = a'.
Proof.
  intros E. apply append_inv_length in E as [E _]; [assumption|].
  apply (f_equal String.length) in E. rewrite !length_append in E. lia.
Qed.

(** A markup string has one reading. *)
Lemma markup_inj (n n' : Z) (code code' : string) :
  MarkupSpec.markup n code = MarkupSpec.markup n' code' ->
  n = n' /\ code = code'.
Proof.
  unfold MarkupSpec.markup. intros E.
  change ("<t:" +:+ str n +:+ ":" +:+ code +:+ ">")
    with ("<t:" +:+ (str n +:+ String ":" (code +:+ ">"))) in E.
  change ("<t:" +:+ str n' +:+ ":" +:+ code' +:+ ">")
    with ("<t:" +:+ (str n' +:+ String ":" (code' +:+ ">"))) in E.
  apply append_inv_length in E as [_ E]; [|reflexivity].
  apply split_at_colon in E as [E1 E2]; try apply str_not_colon.
  split; [now apply str_inj | now apply append_inv_r in E2].
Qed.

End StrFacts.

(** ** generate_discord_timestamp *)

Import MarkupSpec.

Lemma generate_discord_timestamp_near_epoch (dt : datetime) (code : string) :
  Z.abs (instant dt) < 2 ^ 34 * 1000000 ->
  generate_discord_timestamp dt code = markup (epoch_seconds dt) code.
Proof.
  intros H. unfold generate_discord_timestamp, markup, timestamp, epoch_seconds.
  cbv zeta. now rewrite FloatFacts.to_int_true_divide.
Qed.

(** C2, as amended.  For every aware instant less than 2^34 seconds away
    from the epoch (so before 2514-05-30T01:53:04Z) and every code of the
    closed set, the formatter returns exactly [<t:{epochSeconds}:{code}>],
    [epochSeconds] being the whole seconds since the epoch with the
    fraction dropped; at epoch second 1704110400 code "F" gives
    [<t:1704110400:F>] and code "R" gives [<t:1704110400:R>]. *)
Theorem generate_discord_timestamp_exact :
  (forall dt code,
      In code format_codes ->
      Z.abs (instant dt) < 2 ^ 34 * 1000000 ->
      generate_discord_timestamp dt code = markup (epoch_seconds dt) code)
  /\ generate_discord_timestamp (DateTime 1704110400000000 UTC) "F"
     = "<t:1704110400:F>"
  /\ generate_discord_timestamp (DateTime 1704110400000000 UTC) "R"
     = "<t:1704110400:R>".
Proof.
  split; [|split; vm_compute; reflexivity].
  intros dt code _. apply generate_discord_timestamp_near_epoch.
Qed.

Lemma generate_discord_timestamp_exact_witness :
  generate_discord_timestamp
    (DateTime 1704110400250000 (TzInfo "Asia/Tokyo" 32400000000)) "f"
  = markup 1704078000 "f".
Proof.
  destruct generate_discord_timestamp_exact as [H _].
  apply (H (DateTime 1704110400250000 (TzInfo "Asia/Tokyo" 32400000000)) "f").
  - simpl. tauto.
  - vm_compute. reflexivity.
Defined.

(** C2 as stated fails: the instant 2514-05-30T01:53:04.999999Z is
    17179869184 whole seconds after the epoch, but its float timestamp
    rounds to 17179869185.0 and the markup carries 17179869185. *)
Lemma generate_discord_timestamp_rounds_up :
  In "F" format_codes
  /\ epoch_seconds (DateTime 17179869184999999 UTC) = 17179869184
  /\ generate_discord_timestamp (DateTime 17179869184999999 UTC) "F"
     = "<t:17179869185:F>"
  /\ generate_discord_timestamp (DateTime 17179869184999999 UTC) "F"
     <> markup (epoch_seconds (DateTime 17179869184999999 UTC)) "F".
Proof.
  split; [simpl; tauto|]. split; [reflexivity|].
  split; [vm_compute; reflexivity | vm_compute; discriminate].
Qed.

Import Cog ErrorSpec.

Lemma format_examples_codes (dt : datetime) entry :
  In entry (get_all_format_examples dt) ->
  In (fst (snd entry)) format_codes
  /\ snd (snd entry) = generate_discord_timestamp dt (fst (snd entry)).
Proof.
  unfold get_all_format_examples. intros H.
  repeat (destruct H as [<-|H]; [split; [simpl; tauto | reflexivity]|]).
  destruct H.
Qed.

(** C3.  The formatter is total and does not look at the code: for any
    datetime and any code it returns [<t:n:code>], [n] being the integer
    part of the float timestamp, so a code outside the closed set raises
    nothing.  Every markup string the program makes (the reply of
    [/timestamp], the reply of [/in] and the seven entries of
    [get_all_format_examples]) carries a code of the closed set, and a markup
    string reads as one second count and one code only. *)
Theorem markup_invariant :
  (forall dt code,
      generate_discord_timestamp dt code
      = markup (Float.to_int (timestamp dt)) code)
  /\ (forall dt code,
         In code format_codes -> is_markup (generate_discord_timestamp dt code))
  /\ (forall dt entry,
         In entry (get_all_format_examples dt) ->
         In (fst (snd entry)) format_codes
         /\ snd (snd entry) = generate_discord_timestamp dt (fst (snd entry))
         /\ is_markup (snd (snd entry)))
  /\ (forall pytz_timezone dateparser_parse self user_id time_string dt,
         fst (parse_natural_time pytz_timezone dateparser_parse time_string
                (_get_user_timezone self user_id)) = Ok dt ->
         exists mk,
           is_markup mk
           /\ content (timestamp_command pytz_timezone dateparser_parse
                         self user_id time_string)
              = "📅 " +:+ mk +:+ " (**" +:+ time_string +:+ "**)")
  /\ (forall L clock duration dt,
         parse_relative_time L clock duration = Ok dt ->
         exists mk,
           is_markup mk
           /\ content (in_command L clock duration)
              = "⏱️ " +:+ mk +:+ " (in **" +:+ duration +:+ "**)")
  /\ (forall n code n' code',
         markup n code = markup n' code' -> n = n' /\ code = code').
Proof.
  assert (forall dt code,
             In code format_codes ->
             is_markup (generate_discord_timestamp dt code)) as Hm.
  { intros dt code Hc. exists (Float.to_int (timestamp dt)), code. now split. }
  split; [reflexivity|]. split; [exact Hm|]. split; [|split; [|split]].
  - intros dt entry Hin. destruct (format_examples_codes dt entry Hin) as [Hc E].
    split; [assumption|]. split; [assumption|]. rewrite E. now apply Hm.
  - intros pytz dp self uid s dt Hp.
    exists (generate_discord_timestamp dt "F"). split.
    + apply Hm. simpl. tauto.
    + unfold timestamp_command. now rewrite Hp.
  - intros L clock d dt Hp.
    exists (generate_discord_timestamp dt "R"). split.
    + apply Hm. simpl. tauto.
    + unfold in_command. now rewrite Hp.
  - intros n code n' code'. apply StrFacts.markup_inj.
Qed.

Lemma markup_invariant_witness :
  is_markup (generate_discord_timestamp (DateTime 1704110400000000 UTC) "D")
  /\ (exists mk,
         is_markup mk
         /\ content (in_command 4300 1700000000000000 "1h 30m")
            = "⏱️ " +:+ mk +:+ " (in **" +:+ "1h 30m" +:+ "**)")
  /\ (1704110400 = 1704110400 /\ "F" = "F").
Proof.
  destruct markup_invariant as (_ & Hm & _ & _ & Hin & Hinj).
  split; [|split].
  - apply Hm. simpl. tauto.
  - apply (Hin 4300%nat 1700000000000000 "1h 30m"
             (DateTime (1700000000000000 + span 1 30) UTC)).
    vm_compute. reflexivity.
  - apply (Hinj 1704110400 "F" 1704110400 "F"). reflexivity.
Defined.

(** ** The timezone preference store *)

Lemma timezone_command_known pytz_timezone o self user_id timezone :
  is_Some (pytz_timezone timezone) ->
  timezone_command pytz_timezone o self user_id timezone
  = (_save_timezones o
       (MkCog (<[str user_id := timezone]> (user_timezones self))
          (file self) (stdout self)),
     Reply ("✅ Your timezone has been set to **" +:+ timezone +:+ "**") true).
Proof. intros [tzi E]. unfold timezone_command. now rewrite E. Qed.

Lemma save_keeps_memory o self :
  user_timezones (_save_timezones o self) = user_timezones self.
Proof. now destruct o. Qed.

Lemma timezone_command_memory pytz_timezone o self user_id timezone :
  is_Some (pytz_timezone timezone) ->
  user_timezones (fst (timezone_command pytz_timezone o self user_id timezone))
  = <[str user_id := timezone]> (user_timezones self).
Proof.
  intros H. rewrite timezone_command_known by assumption.
  cbn [fst]. now rewrite save_keeps_memory.
Qed.

Lemma timezone_command_lookup_other pytz_timezone o self user_id timezone other :
  other <> user_id ->
  user_timezones (fst (timezone_command pytz_timezone o self user_id timezone))
    !! str other
  = user_timezones self !! str other.
Proof.
  intros Hne. destruct (pytz_timezone timezone) as [tzi|] eqn:E.
  - rewrite timezone_command_memory by (rewrite E; eauto).
    apply lookup_insert_ne. intros Hs. apply StrFacts.str_inj in Hs. congruence.
  - unfold timezone_command. now rewrite E.
Qed.

(** C6.  After [/timezone] with a name the IANA database knows, the
    store gives that name back for the same user, whether or not the user
    had a timezone before and whether or not the file could be written;
    of two sets in a row the later one wins. *)
Theorem set_then_get :
  (forall pytz_timezone o self user_id timezone,
      is_Some (pytz_timezone timezone) ->
      _get_user_timezone
        (fst (timezone_command pytz_timezone o self user_id timezone)) user_id
      = timezone)
  /\ (forall pytz_timezone o1 o2 self user_id tz1 tz2,
         is_Some (pytz_timezone tz1) -> is_Some (pytz_timezone tz2) ->
         _get_user_timezone
           (fst (timezone_command pytz_timezone o2
                   (fst (timezone_command pytz_timezone o1 self user_id tz1))
                   user_id tz2)) user_id
         = tz2).
Proof.
  assert (forall pytz_timezone o self user_id timezone,
             is_Some (pytz_timezone timezone) ->
             _get_user_timezone
               (fst (timezone_command pytz_timezone o self user_id timezone))
               user_id = timezone) as H.
  { intros pytz o self uid tz Hk. unfold _get_user_timezone.
    rewrite timezone_command_memory by assumption.
    now rewrite lookup_insert_eq. }
  split; [exact H|]. intros pytz o1 o2 self uid tz1 tz2 _ H2. now apply H.
Qed.

Lemma set_then_get_witness :
  _get_user_timezone
    (fst (timezone_command Samples.three_zones Written (__init__ Absent)
            42 "Asia/Tokyo")) 42
  = "Asia/Tokyo"
  /\ _get_user_timezone
       (fst (timezone_command Samples.three_zones Written
               (fst (timezone_command Samples.three_zones
                       (WriteFailed Absent "disk full") (__init__ Absent)
                       42 "Asia/Tokyo"))
               42 "Europe/London")) 42
     = "Europe/London".
Proof.
  destruct set_then_get as [H1 H2]. split.
  - apply H1. vm_compute. eauto.
  - apply H2; vm_compute; eauto.
Defined.

(** C7.  A user the store has no entry for gets "UTC": so it is right
    after start-up without a readable file, and it stays so for a user
    through any run of [/timezone] commands of other users. *)
Theorem get_defaults_to_UTC :
  (forall self user_id,
      user_timezones self !! str user_id = None ->
      _get_user_timezone self user_id = "UTC")
  /\ (forall user_id, _get_user_timezone (__init__ Absent) user_id = "UTC")
  /\ (forall user_id, _get_user_timezone (__init__ Unreadable) user_id = "UTC")
  /\ (forall pytz_timezone cmds self user_id,
         user_timezones self !! str user_id = None ->
         Forall (fun c => snd (fst c) <> user_id) cmds ->
         _get_user_timezone (timezone_commands pytz_timezone cmds self) user_id
         = "UTC").
Proof.
  assert (forall self user_id,
             user_timezones self !! str user_id = None ->
             _get_user_timezone self user_id = "UTC") as H.
  { intros self uid E. unfold _get_user_timezone. now rewrite E. }
  split; [exact H|]. split; [|split].
  - intros uid. apply H. apply lookup_empty.
  - intros uid. apply H. apply lookup_empty.
  - intros pytz cmds. induction cmds as [|[[o u] tz] cmds IH];
      intros self uid E Hall; cbn [timezone_commands].
    + now apply H.
    + apply Forall_cons in Hall as [Hu Hall]. cbn [fst snd] in Hu.
      apply IH; [|assumption].
      rewrite timezone_command_lookup_other by congruence. exact E.
Qed.

Lemma get_defaults_to_UTC_witness :
  _get_user_timezone
    (timezone_commands Samples.three_zones
       [(Written, 7, "Europe/London"); (Written, 8, "Asia/Tokyo")]
       (__init__ Absent)) 42
  = "UTC".
Proof.
  destruct get_defaults_to_UTC as (_ & _ & _ & H).
  apply H.
  - apply lookup_empty.
  - repeat constructor; cbn [fst snd]; lia.
Defined.

(** C8, as amended.  [/timezone] asks the IANA database first.  A name it
    does not know is rejected with the unknown-timezone reply and the cog
    is left exactly as it was: no entry made or changed, nothing written.
    For a name it knows the entry of the user is set in memory and the
    whole mapping is then written to the file; when that write raises,
    the error is printed, the file is whatever the failed write left and
    the update in memory stands. *)
Theorem timezone_command_validates :
  (forall pytz_timezone o self user_id timezone,
      pytz_timezone timezone = None ->
      fst (timezone_command pytz_timezone o self user_id timezone) = self
      /\ rejects (snd (timezone_command pytz_timezone o self user_id timezone))
           timezone)
  /\ (forall pytz_timezone o self user_id timezone,
         is_Some (pytz_timezone timezone) ->
         let after := fst (timezone_command pytz_timezone o self user_id timezone) in
         user_timezones after = <[str user_id := timezone]> (user_timezones self)
         /\ match o with
            | Written =>
                file after = Holds (<[str user_id := timezone]> (user_timezones self))
                /\ stdout after = stdout self
            | WriteFailed remains err =>
                file after = remains
                /\ stdout after = stdout self ++ ["Error saving timezones: " +:+ err]
            end).
Proof.
  split.
  - intros pytz o self uid tz E. unfold timezone_command. rewrite E.
    cbn [fst snd]. split; [reflexivity|]. split; [reflexivity|].
    cbn [content]. now eexists.
  - intros pytz o self uid tz Hk after. subst after.
    rewrite timezone_command_known by assumption. cbn [fst].
    destruct o; cbn [_save_timezones user_timezones file stdout]; now repeat split.
Qed.

Lemma timezone_command_validates_witness :
  fst (timezone_command Samples.three_zones Written (__init__ Absent)
         42 "Mars/Olympus")
  = __init__ Absent
  /\ file (fst (timezone_command Samples.three_zones Written (__init__ Absent)
                  42 "Asia/Tokyo"))
     = Holds (<[str 42 := "Asia/Tokyo"]> ∅).
Proof.
  destruct timezone_command_validates as [H1 H2]. split.
  - apply (H1 Samples.three_zones Written (__init__ Absent) 42 "Mars/Olympus").
    reflexivity.
  - apply (H2 Samples.three_zones Written (__init__ Absent) 42 "Asia/Tokyo").
    vm_compute. eauto.
Defined.

(** C8 as stated fails: with a known name and a file that cannot be
    written the entry is set in memory and the confirmation is sent, but
    the mapping is not persisted: the file still does not exist. *)
Lemma timezone_command_not_persisted :
  is_Some (Samples.three_zones "Asia/Tokyo")
  /\ user_timezones
       (fst (timezone_command Samples.three_zones
               (WriteFailed Absent
                  "[Errno 13] Permission denied: 'user_timezones.json'")
               (__init__ Absent) 42 "Asia/Tokyo")) !! "42"
     = Some "Asia/Tokyo"
  /\ content
       (snd (timezone_command Samples.three_zones
               (WriteFailed Absent
                  "[Errno 13] Permission denied: 'user_timezones.json'")
               (__init__ Absent) 42 "Asia/Tokyo"))
     = "✅ Your timezone has been set to **Asia/Tokyo**"
  /\ file
       (fst (timezone_command Samples.three_zones
               (WriteFailed Absent
                  "[Errno 13] Permission denied: 'user_timezones.json'")
               (__init__ Absent) 42 "Asia/Tokyo"))
     = Absent
  /\ file
       (fst (timezone_command Samples.three_zones
               (WriteFailed Absent
                  "[Errno 13] Permission denied: 'user_timezones.json'")
               (__init__ Absent) 42 "Asia/Tokyo"))
     <> Holds (<[str 42 := "Asia/Tokyo"]> ∅).
Proof.
  split; [vm_compute; eauto|].
  split; [apply lookup_insert_eq|]. split; [reflexivity|].
  split; [reflexivity | discriminate].
Qed.

(** ** parse_natural_time *)

(** C9.  A timezone name [pytz] does not know makes the resolver fail
    with the unknown-timezone error after the single call to [pytz], the
    interpreter not being called.  With a known name the interpreter is
    called once, with that timezone, aware results and a preference for
    future dates, and the resolver fails with the could-not-parse error
    exactly when the interpreter returns nothing; otherwise it returns what
    the interpreter returned.  So with "UTC" known and the interpreter
    returning nothing for "xyz not a time", the call fails with
    [UnparseableTime]. *)
Theorem parse_natural_time_errors :
  (forall pytz_timezone dateparser_parse time_str user_timezone,
      pytz_timezone user_timezone = None ->
      exists e,
        parse_natural_time pytz_timezone dateparser_parse time_str user_timezone
        = (Err e, [CallPytzTimezone user_timezone])
        /\ InvalidTimezone e)
  /\ (forall pytz_timezone dateparser_parse time_str user_timezone,
         is_Some (pytz_timezone user_timezone) ->
         let settings := Settings user_timezone true "future" in
         let run := parse_natural_time pytz_timezone dateparser_parse
                      time_str user_timezone in
         snd run = [CallPytzTimezone user_timezone;
                    CallDateparserParse time_str settings]
         /\ ((exists e, fst run = Err e /\ UnparseableTime e)
             <-> dateparser_parse time_str settings = None)
         /\ (forall dt, dateparser_parse time_str settings = Some dt ->
                        fst run = Ok dt))
  /\ (forall pytz_timezone dateparser_parse,
         is_Some (pytz_timezone "UTC") ->
         dateparser_parse "xyz not a time" (Settings "UTC" true "future") = None ->
         exists e,
           fst (parse_natural_time pytz_timezone dateparser_parse
                  "xyz not a time" "UTC") = Err e
           /\ UnparseableTime e).
Proof.
  assert (forall pytz dp s tz,
             is_Some (pytz tz) -> dp s (Settings tz true "future") = None ->
             exists e, fst (parse_natural_time pytz dp s tz) = Err e
                       /\ UnparseableTime e) as Hnone.
  { intros pytz dp s tz [tzi E] En. unfold parse_natural_time.
    rewrite E, En. cbn [fst]. eexists. split; [reflexivity|]. now eexists. }
  split; [|split].
  - intros pytz dp s tz E. unfold parse_natural_time. rewrite E.
    eexists. split; [reflexivity|]. now eexists.
  - intros pytz dp s tz Hk settings run. split; [|split].
    + subst run. destruct Hk as [tzi E]. unfold parse_natural_time.
      now rewrite E.
    + split; [|now apply Hnone].
      intros (e & He & Hu). subst run. destruct Hk as [tzi E].
      unfold parse_natural_time in He. rewrite E in He. cbn [fst] in He.
      fold settings in He. destruct (dp s settings); [discriminate|].
      reflexivity.
    + intros dt Hd. subst run. destruct Hk as [tzi E].
      unfold parse_natural_time. rewrite E. cbn [fst]. fold settings.
      now rewrite Hd.
  - intros pytz dp. apply Hnone.
Qed.

Lemma parse_natural_time_errors_witness :
  (exists e,
      parse_natural_time Samples.three_zones Samples.one_phrase
        "today 3pm" "Invalid/Timezone"
      = (Err e, [CallPytzTimezone "Invalid/Timezone"])
      /\ InvalidTimezone e)
  /\ fst (parse_natural_time Samples.three_zones Samples.one_phrase
            "2024-01-01 12:00" "UTC")
     = Ok (DateTime 1704110400000000 UTC)
  /\ (exists e,
         fst (parse_natural_time Samples.three_zones Samples.one_phrase
                "xyz not a time" "UTC") = Err e
         /\ UnparseableTime e).
Proof.
  destruct parse_natural_time_errors as (H1 & H2 & H3). split; [|split].
  - apply H1. reflexivity.
  - apply (H2 Samples.three_zones Samples.one_phrase "2024-01-01 12:00" "UTC").
    + vm_compute. eauto.
    + reflexivity.
  - apply H3; [vm_compute; eauto | reflexivity].
Defined.

(** * Further properties of the same functions *)

(** ** Normalizing a text *)

Module TextFacts.
Import Observations.

Lemma lower_char_space (c : ascii) :
  Text.isspace (Text.lower_char c) = Text.isspace c.
Proof. destruct c as [[] [] [] [] [] [] [] []]; vm_compute; reflexivity. Qed.

Lemma lower_char_idem (c : ascii) :
  Text.lower_char (Text.lower_char c) = Text.lower_char c.
Proof. destruct c as [[] [] [] [] [] [] [] []]; vm_compute; reflexivity. Qed.

Lemma lower_idem (s : string) : Text.lower (Text.lower s) = Text.lower s.
Proof.
  induction s as [|c s IH]; simpl; [reflexivity|].
  now rewrite lower_char_idem, IH.
Qed.

Lemma lower_append (a b : string) :
  Text.lower (a +:+ b) = Text.lower a +:+ Text.lower b.
Proof.
  induction a as [|c a IH]; app_simpl; simpl; [reflexivity|].
  now rewrite IH, append_cons.
Qed.

Lemma lower_all_space (s : string) :
  Text.all Text.isspace (Text.lower s) = Text.all Text.isspace s.
Proof.
  induction s as [|c s IH]; simpl; [reflexivity|].
  now rewrite lower_char_space, IH.
Qed.

Lemma lower_lstrip (s : string) :
  Text.lstrip (Text.lower s) = Text.lower (Text.lstrip s).
Proof.
  induction s as [|c s IH]; simpl; [reflexivity|].
  rewrite lower_char_space. now destruct (Text.isspace c).
Qed.

Lemma lower_rstrip (s : string) :
  Text.rstrip (Text.lower s) = Text.lower (Text.rstrip s).
Proof.
  induction s as [|c s IH]; simpl; [reflexivity|].
  rewrite IH, lower_char_space.
  destruct (Text.rstrip s) as [|d r]; simpl; [|reflexivity].
  now destruct (Text.isspace c).
Qed.

Lemma lower_strip (s : string) :
  Text.strip (Text.lower s) = Text.lower (Text.strip s).
Proof. unfold Text.strip. now rewrite lower_lstrip, lower_rstrip. Qed.

Lemma rstrip_idem (s : string) : Text.rstrip (Text.rstrip s) = Text.rstrip s.
Proof.
  induction s as [|c s IH]; simpl; [reflexivity|].
  destruct (Text.rstrip s) as [|d r] eqn:E.
  - destruct (Text.isspace c) eqn:Hc; simpl; [reflexivity | now rewrite Hc].
  - change (Text.rstrip (String c (String d r)))
      with (match Text.rstrip (String d r) with
            | EmptyString => if Text.isspace c then EmptyString
                             else String c EmptyString
            | r0 => String c r0
            end).
    now rewrite IH.
Qed.

(** A text that does not start with a blank keeps its first character
    under [rstrip]. *)
Lemma lstrip_rstrip (s : string) :
  Text.lstrip (Text.rstrip (Text.lstrip s)) = Text.rstrip (Text.lstrip s).
Proof.
  induction s as [|c s IH]; simpl; [reflexivity|].
  destruct (Text.isspace c) eqn:Hc; [assumption|].
  simpl. destruct (Text.rstrip s); rewrite ?Hc; simpl; rewrite ?Hc; reflexivity.
Qed.

Lemma strip_idem (s : string) : Text.strip (Text.strip s) = Text.strip s.
Proof. unfold Text.strip. now rewrite lstrip_rstrip, rstrip_idem. Qed.

Lemma normalized_idem (s : string) : normalized (normalized s) = normalized s.
Proof.
  unfold normalized. now rewrite <- lower_strip, lower_idem, strip_idem.
Qed.

Lemma lstrip_blanks (ws s : string) :
  Text.all Text.isspace ws = true -> Text.lstrip (ws +:+ s) = Text.lstrip s.
Proof.
  induction ws as [|c ws IH]; app_simpl; simpl; [reflexivity|].
  intros H. apply andb_true_iff in H as [-> H]. now apply IH.
Qed.

Lemma rstrip_all_blank (ws : string) :
  Text.all Text.isspace ws = true -> Text.rstrip ws = "".
Proof.
  induction ws as [|c ws IH]; simpl; [reflexivity|].
  intros H. apply andb_true_iff in H as [-> H]. now rewrite IH.
Qed.

Lemma rstrip_blanks (s ws : string) :
  Text.all Text.isspace ws = true -> Text.rstrip (s +:+ ws) = Text.rstrip s.
Proof.
  intros H. induction s as [|c s IH]; app_simpl; simpl.
  - now apply rstrip_all_blank.
  - now rewrite IH.
Qed.

Lemma strip_blanks_r (s ws : string) :
  Text.all Text.isspace ws = true -> Text.strip (s +:+ ws) = Text.strip s.
Proof.
  intros H. unfold Text.strip. induction s as [|c s IH]; app_simpl; simpl.
  - rewrite <- (append_nil_r ws), (lstrip_blanks ws "" H). reflexivity.
  - destruct (Text.isspace c); [assumption|].
    rewrite <- append_cons. now apply rstrip_blanks.
Qed.

Lemma normalized_padding (ws1 s ws2 : string) :
  Text.all Text.isspace ws1 = true -> Text.all Text.isspace ws2 = true ->
  normalized (ws1 +:+ s +:+ ws2) = normalized s.
Proof.
  intros H1 H2. unfold normalized. rewrite !lower_append.
  unfold Text.strip at 1. rewrite lstrip_blanks by now rewrite lower_all_space.
  fold (Text.strip (Text.lower s +:+ Text.lower ws2)).
  apply strip_blanks_r. now rewrite lower_all_space.
Qed.

End TextFacts.

(** ** parse_relative_time: what comes out *)

Import Observations.

Lemma parse_relative_time_normalized (L : nat) (clock : Z) (s s' : string) :
  normalized s = normalized s' ->
  parse_relative_time L clock s = parse_relative_time L clock s'.
Proof.
  unfold parse_relative_time, normalized. now intros ->.
Qed.

(** X3.  The parser does not see letter case nor blanks around the text:
    the lowercased text, the normalized text and the text padded with
    whitespace on either side all give what the text itself gives, result
    or error alike. *)
Theorem parse_relative_time_ignores_case_and_padding (L : nat) (clock : Z)
  (s : string) :
  parse_relative_time L clock (Text.lower s) = parse_relative_time L clock s
  /\ parse_relative_time L clock (normalized s) = parse_relative_time L clock s
  /\ (forall ws1 ws2,
         Text.all Text.isspace ws1 = true -> Text.all Text.isspace ws2 = true ->
         parse_relative_time L clock (ws1 +:+ s +:+ ws2)
         = parse_relative_time L clock s).
Proof.
  split; [|split].
  - apply parse_relative_time_normalized. unfold normalized.
    now rewrite TextFacts.lower_idem.
  - apply parse_relative_time_normalized, TextFacts.normalized_idem.
  - intros ws1 ws2 H1 H2. apply parse_relative_time_normalized.
    now apply TextFacts.normalized_padding.
Qed.

Lemma parse_relative_time_ignores_case_and_padding_witness :
  parse_relative_time 4300 1700000000000000 ("  " +:+ "2H 5Min" +:+ " ")
  = parse_relative_time 4300 1700000000000000 "2H 5Min".
Proof.
  destruct (parse_relative_time_ignores_case_and_padding
              4300 1700000000000000 "2H 5Min") as (_ & _ & H).
  apply H; reflexivity.
Defined.

Lemma int_digits (L : nat) (ds : string) :
  ds <> "" -> Text.all Text.isdecimal ds = true ->
  int L ds = Ok (digits_value 0 ds)
  \/ (exists e, int L ds = Err e /\ ExceedsLimit L e).
Proof.
  intros Hne Hds. unfold int. rewrite Hds.
  destruct ds as [|c ds]; [easy|]. cbn [negb orb String.length Nat.eqb].
  destruct ((0 <? L)%nat && (L <? S (String.length ds))%nat) eqn:E.
  - right. eexists. split; [reflexivity|].
    exists (S (String.length ds)). split; [|reflexivity].
    apply andb_true_iff in E as [E1 E2].
    apply Nat.ltb_lt in E1, E2. lia.
  - now left.
Qed.

(** What the parser reads for a unit: a quantity that is not negative, or
    the error of [int()] for too long a run of digits. *)
Lemma quantity_cases (L : nat) (tokens : list string) (r : regex) (t : string) :
  match search r t with
  | Some mo =>
      exists ds, group1 mo = Some ds
                 /\ occurs_at tokens t (m_start mo) ds
                 /\ forall j d, occurs_at tokens t j d -> (m_start mo <= j)%nat
  | None => absent tokens t
  end ->
  (exists q, TimeParser.quantity L (search r t) = Ok q
             /\ 0 <= q /\ quantity tokens t q)
  \/ (exists e, TimeParser.quantity L (search r t) = Err e /\ ExceedsLimit L e).
Proof.
  intros H. destruct (search r t) as [mo|]; cbn [TimeParser.quantity].
  - destruct H as (ds & -> & Hocc & Hmin).
    assert (quantity tokens t (digits_value 0 ds)) as Hq.
    { right. exists ds. split; [|reflexivity]. now exists (m_start mo). }
    pose proof (quantity_nonneg _ _ _ Hq) as Hpos.
    destruct Hocc as (_ & _ & _ & _ & _ & _ & Hne & Hds & _).
    destruct (int_digits L ds Hne Hds) as [->|(e & -> & He)].
    + left. now eexists.
    + right. now eexists.
  - left. exists 0. split; [reflexivity|]. split; [lia|]. now left.
Qed.

Lemma hour_quantity_cases (L : nat) (t : string) :
  (exists q, TimeParser.quantity L (search hour_pattern t) = Ok q
             /\ 0 <= q /\ quantity hour_tokens t q)
  \/ (exists e, TimeParser.quantity L (search hour_pattern t) = Err e
                /\ ExceedsLimit L e).
Proof. apply quantity_cases, hour_search_spec. Qed.

Lemma minute_quantity_cases (L : nat) (t : string) :
  (exists q, TimeParser.quantity L (search minute_pattern t) = Ok q
             /\ 0 <= q /\ quantity minute_tokens t q)
  \/ (exists e, TimeParser.quantity L (search minute_pattern t) = Err e
                /\ ExceedsLimit L e).
Proof. apply quantity_cases, minute_search_spec. Qed.

Lemma parse_relative_time_err_cases (L : nat) (clock : Z) (s : string)
  (e : exn) :
  parse_relative_time L clock s = Err e ->
  UnparseableDuration e \/ ExceedsLimit L e \/ (exists msg, e = OverflowError msg).
Proof.
  unfold parse_relative_time. fold (normalized s). cbv zeta.
  destruct (hour_quantity_cases L (normalized s))
    as [(H & -> & _ & _)|(eh & -> & Heh)]; cbn [bind].
  2: { intros [= <-]. now right; left. }
  destruct (minute_quantity_cases L (normalized s))
    as [(M & -> & _ & _)|(em & -> & Hem)]; cbn [bind].
  2: { intros [= <-]. now right; left. }
  destruct ((H =? 0) && (M =? 0)).
  - intros [= <-]. left. now eexists.
  - intros He. right; right. revert He. unfold timedelta.
    destruct (_ && _); cbv beta iota delta [bind];
      [|intros [= <-]; now eexists].
    unfold add. destruct (in_range _); [discriminate|].
    intros [= <-]. now eexists.
Qed.

(** X1.  A failing call fails in one of three ways only: the parser's own
    "Could not parse duration" error, the error of [int()] for a run of
    digits longer than the interpreter's limit, or an [OverflowError] of
    the date arithmetic.  No [TypeError] and no invalid-literal error ever
    comes out. *)
Theorem parse_relative_time_error_kinds (L : nat) (clock : Z) (s : string)
  (e : exn) :
  parse_relative_time L clock s = Err e ->
  UnparseableDuration e \/ ExceedsLimit L e \/ (exists msg, e = OverflowError msg).
Proof. apply parse_relative_time_err_cases. Qed.

Lemma parse_relative_time_error_kinds_witness :
  UnparseableDuration (ValueError "Could not parse duration: later")
  \/ ExceedsLimit 4300 (ValueError "Could not parse duration: later")
  \/ (exists msg, ValueError "Could not parse duration: later" = OverflowError msg).
Proof.
  apply (parse_relative_time_error_kinds 4300 1700000000000000 " Later ").
  vm_compute. reflexivity.
Defined.

(** X2.  A call that returns, returns a datetime in UTC within the
    datetime range, strictly later than the clock reading and a whole
    number of minutes after it: the clock reading plus the hour quantity
    and the minute quantity of the normalized text, which are not
    negative and not both zero. *)
Theorem parse_relative_time_result (L : nat) (clock : Z) (s : string)
  (dt : datetime) :
  parse_relative_time L clock s = Ok dt ->
  tz dt = UTC
  /\ in_range (wall dt) = true
  /\ clock < wall dt
  /\ (wall dt - clock) mod 60000000 = 0
  /\ exists H M,
       quantity hour_tokens (normalized s) H
       /\ quantity minute_tokens (normalized s) M
       /\ 0 <= H /\ 0 <= M /\ 0 < H + M
       /\ wall dt = clock + span H M.
Proof.
  unfold parse_relative_time. fold (normalized s). cbv zeta.
  destruct (hour_quantity_cases L (normalized s))
    as [(H & -> & HH & QH)|(eh & -> & _)]; cbn [bind]; [|discriminate].
  destruct (minute_quantity_cases L (normalized s))
    as [(M & -> & HM & QM)|(em & -> & _)]; cbn [bind]; [|discriminate].
  destruct ((H =? 0) && (M =? 0)) eqn:Z0; [discriminate|].
  assert (0 < H + M) as Hsum.
  { apply andb_false_iff in Z0 as [Z0|Z0]; apply Z.eqb_neq in Z0; lia. }
  unfold timedelta. cbv zeta.
  destruct ((-999999999 <=? _) && _); cbv beta iota delta [bind];
    [|discriminate].
  unfold add. cbn [wall tz].
  destruct (in_range (clock + (H * 3600 + M * 60) * 1000000)) eqn:Hr;
    [|discriminate].
  intros [= <-]. cbn [wall tz].
  split; [reflexivity|]. split; [assumption|]. split; [lia|]. split.
  - replace (clock + (H * 3600 + M * 60) * 1000000 - clock)
      with ((H * 60 + M) * 60000000) by lia.
    apply Z.mod_mul. lia.
  - exists H, M. unfold span. now repeat split.
Qed.

Lemma parse_relative_time_result_witness :
  tz (DateTime 1700005400000000 UTC) = UTC
  /\ in_range (wall (DateTime 1700005400000000 UTC)) = true
  /\ 1700000000000000 < wall (DateTime 1700005400000000 UTC)
  /\ (wall (DateTime 1700005400000000 UTC) - 1700000000000000) mod 60000000 = 0
  /\ exists H M,
       quantity hour_tokens (normalized "1h 30m") H
       /\ quantity minute_tokens (normalized "1h 30m") M
       /\ 0 <= H /\ 0 <= M /\ 0 < H + M
       /\ wall (DateTime 1700005400000000 UTC) = 1700000000000000 + span H M.
Proof.
  apply (parse_relative_time_result 4300 1700000000000000 "1h 30m").
  vm_compute. reflexivity.
Defined.

(** ** The second count of a markup string, over the whole datetime range *)

Module FloatRange.
Import Float FloatFacts.

Lemma ilog2_quot_range (n : Z) :
  0 < n < 2 ^ 52 * 1000000 -> ilog2_quot n 1000000 <= 51.
Proof.
  intros [Hpos Hlt]. unfold ilog2_quot. cbv zeta.
  change (Z.log2 1000000) with 19.
  assert (Z.log2 n < 72) as Hlog.
  { apply Z.log2_lt_pow2; [assumption|].
    apply Z.lt_le_trans with (2 ^ 52 * 1000000); [assumption|].
    vm_compute. discriminate. }
  set (k := Z.log2 n - 19) in *.
  destruct (0 <=? k) eqn:Hk.
  - apply Z.leb_le in Hk.
    destruct (1000000 * 2 ^ k <=? n) eqn:Hr; [|lia].
    apply Z.leb_le in Hr.
    assert (2 ^ k < 2 ^ 52) as Hp by lia.
    apply Z.pow_lt_mono_r_iff in Hp; lia.
  - apply Z.leb_gt in Hk. destruct (1000000 <=? n * 2 ^ (- k)); lia.
Qed.

(** With at least one binary place the rounded quotient stays within the
    second it started in, or lands exactly on the next one. *)
Lemma rounded_within_one (n P : Z) :
  0 <= n -> 2 <= P ->
  let m := round_half_even (n * P) 1000000 in
  m / P = n / 1000000 \/ m / P = n / 1000000 + 1.
Proof.
  intros Hn HP m.
  destruct (round_half_even_bounds (n * P) 1000000 ltac:(nia) ltac:(lia))
    as [[Hlo Hhi] _].
  fold m in Hlo, Hhi.
  pose proof (Z.div_mod n 1000000 ltac:(lia)) as En.
  pose proof (Z.mod_pos_bound n 1000000 ltac:(lia)) as Hf.
  pose proof (Z.div_mod (n * P) 1000000 ltac:(lia)) as Eq.
  pose proof (Z.mod_pos_bound (n * P) 1000000 ltac:(lia)) as Hr.
  set (S := n / 1000000) in *. set (f := n mod 1000000) in *.
  set (q := (n * P) / 1000000) in *. set (r := (n * P) mod 1000000) in *.
  assert (S * P <= q) as Hq1 by nia.
  assert (q < S * P + P) as Hq2 by nia.
  destruct (Z_lt_le_dec m (S * P + P)) as [Hm|Hm].
  - left. symmetry. apply (Z.div_unique m P S (m - S * P)); lia.
  - right. assert (m = (S + 1) * P) as -> by lia.
    apply Z.div_mul. lia.
Qed.

Lemma to_int_true_divide_within_one (a : Z) :
  Z.abs a < 2 ^ 52 * 1000000 ->
  to_int (true_divide a 1000000) = Z.quot a 1000000
  \/ to_int (true_divide a 1000000) = Z.quot a 1000000 + Z.sgn a.
Proof.
  intros Ha. unfold true_divide.
  destruct (a =? 0) eqn:E0.
  - apply Z.eqb_eq in E0 as ->. now left.
  - apply Z.eqb_neq in E0. cbv zeta.
    pose proof (ilog2_quot_range (Z.abs a) ltac:(lia)) as Hk.
    set (e := ilog2_quot (Z.abs a) 1000000 - 52) in *.
    assert (e <= -1) as He by lia.
    replace (0 <=? e) with false by (symmetry; apply Z.leb_gt; lia).
    unfold to_int. cbn [exponent mantissa].
    replace (0 <=? e) with false by (symmetry; apply Z.leb_gt; lia).
    assert (2 <= 2 ^ (- e)) as HP.
    { change 2 with (2 ^ 1) at 1. apply Z.pow_le_mono_r; lia. }
    pose proof (rounded_within_one (Z.abs a) (2 ^ (- e)) ltac:(lia) HP) as Hm.
    cbv zeta in Hm.
    destruct (round_half_even_bounds (Z.abs a * 2 ^ (- e)) 1000000
                ltac:(nia) ltac:(lia)) as [[Hlo _] _].
    assert (0 <= Z.abs a * 2 ^ (- e) / 1000000)
      by (apply Z.div_pos; nia).
    set (m := round_half_even (Z.abs a * 2 ^ (- e)) 1000000) in *.
    destruct (Z_lt_le_dec a 0) as [Hneg|Hpos].
    + rewrite (Z.sgn_neg a Hneg).
      replace (-1 * m) with (- m) by lia.
      rewrite Z.quot_opp_l by lia.
      rewrite (Z.quot_div_nonneg m) by lia.
      assert (Z.quot a 1000000 = - (Z.abs a / 1000000)) as ->.
      { rewrite <- (Z.quot_div_nonneg (Z.abs a)) by lia.
        rewrite <- Z.quot_opp_l by lia. f_equal. lia. }
      destruct Hm as [->| ->]; [left | right]; lia.
    + rewrite (Z.sgn_pos a) by lia.
      replace (1 * m) with m by lia.
      rewrite (Z.quot_div_nonneg m) by lia.
      replace (Z.abs a) with a in Hm by lia.
      rewrite (Z.quot_div_nonneg a) by lia.
      destruct Hm as [->| ->]; [left | right]; lia.
Qed.

End FloatRange.

(** X4.  For every datetime of the datetime range whose offset from UTC
    is less than a day, the second count the formatter writes is the whole
    seconds since the epoch or one second further from the epoch, never
    anything else. *)
Theorem generate_discord_timestamp_within_a_second (dt : datetime)
  (code : string) :
  in_range (wall dt) = true ->
  Z.abs (utcoffset (tz dt)) < 86400000000 ->
  exists n,
    generate_discord_timestamp dt code = markup n code
    /\ (n = epoch_seconds dt \/ n = epoch_seconds dt + Z.sgn (instant dt)).
Proof.
  intros Hr Ho. exists (Float.to_int (timestamp dt)). split; [reflexivity|].
  unfold timestamp, epoch_seconds.
  apply FloatRange.to_int_true_divide_within_one.
  unfold in_range, MIN_WALL, MAX_WALL in Hr.
  apply andb_true_iff in Hr as [H1 H2]. apply Z.leb_le in H1, H2.
  unfold instant.
  apply Z.lt_le_trans with 253488700800000000; [lia | vm_compute; discriminate].
Qed.

Lemma generate_discord_timestamp_within_a_second_witness :
  exists n,
    generate_discord_timestamp (DateTime 17179869184999999 UTC) "R"
    = markup n "R"
    /\ (n = epoch_seconds (DateTime 17179869184999999 UTC)
        \/ n = epoch_seconds (DateTime 17179869184999999 UTC)
               + Z.sgn (instant (DateTime 17179869184999999 UTC))).
Proof.
  apply generate_discord_timestamp_within_a_second; reflexivity.
Defined.

(** ** get_all_format_examples *)

Import Observations.

(** X5.  The examples are seven entries under seven different names, one
    for each code of the closed set in the order of the docstring; every
    entry's string starts with [<t:], ends with [:code>] for the entry's
    own code, and all seven carry the same second count. *)
Theorem get_all_format_examples_shape (dt : datetime) :
  length (get_all_format_examples dt) = 7%nat
  /\ NoDup (map fst (get_all_format_examples dt))
  /\ map (fun entry => fst (snd entry)) (get_all_format_examples dt)
     = format_codes
  /\ (forall name code mk,
         In (name, (code, mk)) (get_all_format_examples dt) ->
         startswith mk "<t:"
         /\ endswith mk (":" +:+ code +:+ ">")
         /\ mk = markup (Float.to_int (timestamp dt)) code).
Proof.
  split; [reflexivity|]. split; [|split; [reflexivity|]].
  - apply NoDup_ListNoDup. cbn [get_all_format_examples map fst].
    repeat (constructor; [simpl; intros H; repeat destruct H as [H|H];
                          discriminate || exact H|]).
    constructor.
  - intros name code mk Hin.
    destruct (format_examples_codes dt _ Hin) as [_ E]. cbn [fst snd] in E.
    subst mk. split; [|split; [|reflexivity]].
    + unfold generate_discord_timestamp. now eexists.
    + unfold generate_discord_timestamp, endswith.
      exists ("<t:" +:+ str (Float.to_int (timestamp dt))).
      now rewrite !append_assoc.
Qed.

Lemma get_all_format_examples_shape_witness :
  startswith "<t:1704110400:D>" "<t:"
  /\ endswith "<t:1704110400:D>" (":" +:+ "D" +:+ ">")
  /\ "<t:1704110400:D>"
     = markup (Float.to_int (timestamp (DateTime 1704110400000000 UTC))) "D".
Proof.
  destruct (get_all_format_examples_shape (DateTime 1704110400000000 UTC))
    as (_ & _ & _ & H).
  apply (H "Long Date" "D" "<t:1704110400:D>").
  vm_compute. tauto.
Defined.

(** ** The store through runs of commands, and the replies *)

Lemma timezone_command_step pytz_timezone o self user_id timezone :
  user_timezones (fst (timezone_command pytz_timezone o self user_id timezone))
  = match pytz_timezone timezone with
    | Some _ => <[str user_id := timezone]> (user_timezones self)
    | None => user_timezones self
    end.
Proof.
  destruct (pytz_timezone timezone) as [tzi|] eqn:E.
  - apply timezone_command_memory. rewrite E. eauto.
  - unfold timezone_command. now rewrite E.
Qed.

Lemma timezone_commands_app pytz_timezone cmds1 cmds2 self :
  timezone_commands pytz_timezone (cmds1 ++ cmds2) self
  = timezone_commands pytz_timezone cmds2
      (timezone_commands pytz_timezone cmds1 self).
Proof.
  revert self. induction cmds1 as [|[[o u] tz] cmds1 IH]; intros self;
    [reflexivity|].
  cbn [app timezone_commands]. apply IH.
Qed.

(** X6.  When the last command of a run is an accepted [/timezone] whose
    write goes through, the file holds the whole mapping of that moment,
    whatever happened to earlier writes: a cog started from that file has
    the same mapping and gives the user the timezone just set. *)
Theorem restart_after_written pytz_timezone cmds self user_id timezone :
  is_Some (pytz_timezone timezone) ->
  let final :=
    timezone_commands pytz_timezone (cmds ++ [(Written, user_id, timezone)])
      self in
  file final = Holds (user_timezones final)
  /\ user_timezones (__init__ (file final)) = user_timezones final
  /\ _get_user_timezone (__init__ (file final)) user_id = timezone.
Proof.
  intros Hk final. subst final. rewrite timezone_commands_app.
  set (before := timezone_commands pytz_timezone cmds self).
  cbn [timezone_commands]. rewrite timezone_command_known by assumption.
  cbn [fst _save_timezones user_timezones file __init__ _load_timezones].
  split; [reflexivity|]. split; [reflexivity|].
  unfold _get_user_timezone, __init__. cbn [user_timezones _load_timezones].
  now rewrite lookup_insert_eq.
Qed.

Lemma restart_after_written_witness :
  file (timezone_commands Samples.three_zones
          ([(WriteFailed Unreadable "disk full", 7, "Europe/London")]
           ++ [(Written, 42, "Asia/Tokyo")]) (__init__ Absent))
  = Holds (user_timezones
             (timezone_commands Samples.three_zones
                ([(WriteFailed Unreadable "disk full", 7, "Europe/London")]
                 ++ [(Written, 42, "Asia/Tokyo")]) (__init__ Absent)))
  /\ user_timezones
       (__init__
          (file (timezone_commands Samples.three_zones
                   ([(WriteFailed Unreadable "disk full", 7, "Europe/London")]
                    ++ [(Written, 42, "Asia/Tokyo")]) (__init__ Absent))))
     = user_timezones
         (timezone_commands Samples.three_zones
            ([(WriteFailed Unreadable "disk full", 7, "Europe/London")]
             ++ [(Written, 42, "Asia/Tokyo")]) (__init__ Absent))
  /\ _get_user_timezone
       (__init__
          (file (timezone_commands Samples.three_zones
                   ([(WriteFailed Unreadable "disk full", 7, "Europe/London")]
                    ++ [(Written, 42, "Asia/Tokyo")]) (__init__ Absent))))
       42
     = "Asia/Tokyo".
Proof.
  apply (restart_after_written Samples.three_zones
           [(WriteFailed Unreadable "disk full", 7, "Europe/London")]
           (__init__ Absent) 42 "Asia/Tokyo").
  vm_compute. eauto.
Defined.

Import Observations.

Lemma timezone_commands_known pytz_timezone cmds self :
  all_known pytz_timezone (user_timezones self) ->
  all_known pytz_timezone
    (user_timezones (timezone_commands pytz_timezone cmds self)).
Proof.
  revert self. induction cmds as [|[[o u] tz] cmds IH]; intros self Hall;
    cbn [timezone_commands]; [assumption|].
  apply IH. rewrite timezone_command_step.
  destruct (pytz_timezone tz) as [tzi|] eqn:E; [|assumption].
  apply map_Forall_insert_2; [rewrite E; eauto | assumption].
Qed.

Lemma timestamp_command_known pytz_timezone dateparser_parse self user_id
  time_string :
  is_Some (pytz_timezone (_get_user_timezone self user_id)) ->
  timestamp_command pytz_timezone dateparser_parse self user_id time_string
  = match dateparser_parse time_string
            (Settings (_get_user_timezone self user_id) true "future") with
    | Some dt =>
        Reply ("📅 " +:+ generate_discord_timestamp dt "F"
               +:+ " (**" +:+ time_string +:+ "**)") false
    | None =>
        Reply ("❌ Error: " +:+ ("Could not parse time string: " +:+ time_string)
               +:+ nl +:+ nl
               +:+ "Please try a different format or set your timezone with `/timezone`")
          true
    end.
Proof.
  intros [tzi E]. unfold timestamp_command, parse_natural_time.
  cbv zeta. rewrite E. cbn [fst].
  now destruct (dateparser_parse _ _).
Qed.

(** X7.  If [pytz] knows "UTC" and every name in the store to begin with
    (an empty store has none), then through any run of [/timezone]
    commands every stored name stays one [pytz] knows.  [/timestamp] then
    never answers with the unknown-timezone error: it answers in public
    with the markup when the interpreter reads the phrase, and in private
    with the could-not-parse error when it does not. *)
Theorem stored_timezones_stay_known pytz_timezone dateparser_parse cmds self :
  is_Some (pytz_timezone "UTC") ->
  all_known pytz_timezone (user_timezones self) ->
  let after := timezone_commands pytz_timezone cmds self in
  all_known pytz_timezone (user_timezones after)
  /\ forall user_id time_string,
       is_Some (pytz_timezone (_get_user_timezone after user_id))
       /\ timestamp_command pytz_timezone dateparser_parse after user_id
            time_string
          = match dateparser_parse time_string
                    (Settings (_get_user_timezone after user_id) true "future")
            with
            | Some dt =>
                Reply ("📅 " +:+ generate_discord_timestamp dt "F"
                       +:+ " (**" +:+ time_string +:+ "**)") false
            | None =>
                Reply ("❌ Error: "
                       +:+ ("Could not parse time string: " +:+ time_string)
                       +:+ nl +:+ nl
                       +:+ "Please try a different format or set your timezone with `/timezone`")
                  true
            end.
Proof.
  intros Hutc Hall after.
  assert (all_known pytz_timezone (user_timezones after)) as Hafter
    by now apply timezone_commands_known.
  split; [assumption|]. intros uid s.
  assert (is_Some (pytz_timezone (_get_user_timezone after uid))) as Hk.
  { unfold _get_user_timezone.
    destruct (user_timezones after !! str uid) as [name|] eqn:E; simpl.
    - exact (map_Forall_lookup_1 _ _ _ _ Hafter E).
    - assumption. }
  split; [assumption|]. now apply timestamp_command_known.
Qed.

Lemma stored_timezones_stay_known_witness :
  all_known Samples.three_zones
    (user_timezones
       (timezone_commands Samples.three_zones
          [(Written, 42, "Asia/Tokyo"); (Written, 7, "Mars/Olympus")]
          (__init__ Absent)))
  /\ forall user_id time_string,
       is_Some (Samples.three_zones
                  (_get_user_timezone
                     (timezone_commands Samples.three_zones
                        [(Written, 42, "Asia/Tokyo"); (Written, 7, "Mars/Olympus")]
                        (__init__ Absent)) user_id))
       /\ timestamp_command Samples.three_zones Samples.one_phrase
            (timezone_commands Samples.three_zones
               [(Written, 42, "Asia/Tokyo"); (Written, 7, "Mars/Olympus")]
               (__init__ Absent)) user_id time_string
          = match Samples.one_phrase time_string
                    (Settings
                       (_get_user_timezone
                          (timezone_commands Samples.three_zones
                             [(Written, 42, "Asia/Tokyo");
                              (Written, 7, "Mars/Olympus")]
                             (__init__ Absent)) user_id) true "future")
            with
            | Some dt =>
                Reply ("📅 " +:+ generate_discord_timestamp dt "F"
                       +:+ " (**" +:+ time_string +:+ "**)") false
            | None =>
                Reply ("❌ Error: "
                       +:+ ("Could not parse time string: " +:+ time_string)
                       +:+ nl +:+ nl
                       +:+ "Please try a different format or set your timezone with `/timezone`")
                  true
            end.
Proof.
  apply (stored_timezones_stay_known Samples.three_zones Samples.one_phrase
           [(Written, 42, "Asia/Tokyo"); (Written, 7, "Mars/Olympus")]
           (__init__ Absent)).
  - vm_compute. eauto.
  - apply map_Forall_empty.
Defined.


(** X9.  In memory, [/timezone] sent twice with the same name leaves what
    one sending leaves, and the commands of two different users can be
    swapped: the mapping comes out the same, whatever happens to the
    writes. *)
Theorem timezone_command_composes pytz_timezone :
  (forall o1 o2 self user_id timezone,
      user_timezones
        (timezone_commands pytz_timezone
           [(o1, user_id, timezone); (o2, user_id, timezone)] self)
      = user_timezones
          (timezone_commands pytz_timezone [(o1, user_id, timezone)] self))
  /\ (forall o1 o2 o3 o4 self user1 tz1 user2 tz2,
         user1 <> user2 ->
         user_timezones
           (timezone_commands pytz_timezone
              [(o1, user1, tz1); (o2, user2, tz2)] self)
         = user_timezones
             (timezone_commands pytz_timezone
                [(o3, user2, tz2); (o4, user1, tz1)] self)).
Proof.
  split.
  - intros o1 o2 self u tz. cbn [timezone_commands].
    rewrite !timezone_command_step.
    destruct (pytz_timezone tz); [|reflexivity]. apply insert_insert_eq.
  - intros o1 o2 o3 o4 self u1 tz1 u2 tz2 Hne. cbn [timezone_commands].
    rewrite !timezone_command_step.
    destruct (pytz_timezone tz1), (pytz_timezone tz2); try reflexivity.
    apply insert_insert_ne. intros Hs. apply StrFacts.str_inj in Hs.
    congruence.
Qed.

Lemma timezone_command_composes_witness :
  user_timezones
    (timezone_commands Samples.three_zones
       [(Written, 7, "Europe/London"); (Written, 42, "Asia/Tokyo")]
       (__init__ Absent))
  = user_timezones
      (timezone_commands Samples.three_zones
         [(WriteFailed Absent "disk full", 42, "Asia/Tokyo");
          (Written, 7, "Europe/London")]
         (__init__ Absent)).
Proof.
  destruct (timezone_command_composes Samples.three_zones) as [_ H].
  apply H. lia.
Defined.

Import Observations.

Lemma senders_cons o user_id timezone cmds :
  senders ((o, user_id, timezone) :: cmds) = user_id :: senders cmds.
Proof. reflexivity. Qed.

(** X11.  A run of [/timezone] commands never removes an entry; it leaves
    the entry (or the lack of one) of every user who sent none of the
    commands as it was; and the only keys it adds are those of users who
    sent one. *)
Theorem timezone_commands_keep_entries pytz_timezone cmds self :
  dom (user_timezones self)
    ⊆ dom (user_timezones (timezone_commands pytz_timezone cmds self))
  /\ (forall user_id,
         ~ In user_id (senders cmds) ->
         user_timezones (timezone_commands pytz_timezone cmds self)
           !! str user_id
         = user_timezones self !! str user_id)
  /\ (forall key,
         key ∈ dom (user_timezones (timezone_commands pytz_timezone cmds self)) ->
         key ∈ dom (user_timezones self)
         \/ exists user_id, In user_id (senders cmds) /\ key = str user_id).
Proof.
  revert self. induction cmds as [|[[o u] tz] cmds IH]; intros self.
  - cbn [timezone_commands]. split; [reflexivity|]. split; [reflexivity|].
    intros key Hk. now left.
  - cbn [timezone_commands]. rewrite senders_cons.
    set (next := fst (timezone_command pytz_timezone o self u tz)).
    destruct (IH next) as (Hdom & Hother & Hnew).
    assert (user_timezones next
            = match pytz_timezone tz with
              | Some _ => <[str u := tz]> (user_timezones self)
              | None => user_timezones self
              end) as Estep by apply timezone_command_step.
    split; [|split].
    + etransitivity; [|exact Hdom]. rewrite Estep.
      destruct (pytz_timezone tz); [apply dom_insert_subseteq | reflexivity].
    + intros uid Hnot. rewrite Hother by (intros Hin; apply Hnot; now right).
      subst next. apply timezone_command_lookup_other.
      intros ->. apply Hnot. now left.
    + intros key Hk. destruct (Hnew key Hk) as [Hin|(uid & Hin & ->)].
      * rewrite Estep in Hin. destruct (pytz_timezone tz); [|now left].
        rewrite dom_insert_L in Hin.
        apply elem_of_union in Hin as [Hin|Hin]; [|now left].
        apply elem_of_singleton in Hin as ->. right. exists u.
        split; [now left | reflexivity].
      * right. exists uid. split; [now right | reflexivity].
Qed.

Lemma timezone_commands_keep_entries_witness :
  user_timezones
    (timezone_commands Samples.three_zones
       [(Written, 7, "Europe/London"); (Written, 8, "Mars/Olympus")]
       (__init__ (Holds {[ "42" := "Asia/Tokyo" ]}))) !! str 42
  = user_timezones (__init__ (Holds {[ "42" := "Asia/Tokyo" ]})) !! str 42.
Proof.
  destruct (timezone_commands_keep_entries Samples.three_zones
              [(Written, 7, "Europe/London"); (Written, 8, "Mars/Olympus")]
              (__init__ (Holds {[ "42" := "Asia/Tokyo" ]}))) as (_ & H & _).
  apply H. simpl. lia.
Defined.

(** ** One number, one unit *)

Module UnitsApart.
Import ReFacts.

(** A run of accepted characters ends where the first rejected one
    stands: two ways of cutting a text into such a run and a rest agree. *)
Lemma run_split (a : atom) (xs ys r r' : string) :
  Text.all (accepts a) xs = true -> Text.all (accepts a) ys = true ->
  stops a r -> stops a r' ->
  xs +:+ r = ys +:+ r' -> xs = ys /\ r = r'.
Proof.
  revert ys. induction xs as [|x xs IH]; intros [|y ys] Hx Hy Hr Hr' E;
    app_simpl; simpl in Hx, Hy.
  - now split.
  - subst r. simpl in Hr. apply andb_true_iff in Hy as [Hy _]. congruence.
  - subst r'. simpl in Hr'. apply andb_true_iff in Hx as [Hx _]. congruence.
  - injection E as -> E.
    apply andb_true_iff in Hx as [_ Hx]. apply andb_true_iff in Hy as [_ Hy].
    destruct (IH _ Hx Hy Hr Hr' E) as [-> ->]. now split.
Qed.

Lemma search_start (r : regex) (t : string) (mo : match_object) :
  search r t = Some mo ->
  exists pre sfx m l,
    t = pre +:+ sfx /\ String.length pre = m_start mo
    /\ exec r sfx None = m :: l.
Proof.
  unfold search. intros E. pose proof (search_from_spec r t 0) as H.
  rewrite E in H. destruct H as (pre & sfx & rest & g & l & -> & Hex & -> & _).
  exists pre, sfx, (rest, g), l. now repeat split.
Qed.

Lemma hour_exec_sound (s : string) m :
  In m (exec hour_pattern s None) ->
  exists ds ws post,
    s = ds +:+ ws +:+ String "h" post
    /\ ds <> "" /\ Text.all Text.isdecimal ds = true
    /\ Text.all Text.isspace ws = true /\ snd m = Some ds.
Proof. apply (exec_sound hour_alts "h"); unit_side. Qed.

Lemma minute_exec_sound (s : string) m :
  In m (exec minute_pattern s None) ->
  exists ds ws post,
    s = ds +:+ ws +:+ String "m" post
    /\ ds <> "" /\ Text.all Text.isdecimal ds = true
    /\ Text.all Text.isspace ws = true /\ snd m = Some ds.
Proof. apply (exec_sound minute_alts "m"); unit_side. Qed.

Lemma starts_apart (t : string) (mh mm : match_object) :
  search hour_pattern t = Some mh -> search minute_pattern t = Some mm ->
  m_start mh <> m_start mm.
Proof.
  intros Eh Em Hsame.
  apply search_start in Eh as (p1 & s1 & m1 & l1 & -> & L1 & X1).
  apply search_start in Em as (p2 & s2 & m2 & l2 & E & L2 & X2).
  apply append_inv_length in E as [_ ->]; [|congruence].
  destruct (hour_exec_sound s2 m1) as (ds & ws & post & E1 & _ & Hds & Hws & _).
  { rewrite X1. now left. }
  destruct (minute_exec_sound s2 m2) as (ds' & ws' & post' & E2 & _ & Hds' & Hws' & _).
  { rewrite X2. now left. }
  rewrite E1 in E2.
  pose proof (stops_digit_after "h" eq_refl ws post Hws) as S1.
  pose proof (stops_digit_after "m" eq_refl ws' post' Hws') as S2.
  apply (run_split Digit _ _ _ _ Hds Hds' S1 S2) in E2 as [_ E2].
  apply (run_split Space _ _ _ _ Hws Hws') in E2 as [_ E2];
    [discriminate | reflexivity | reflexivity].
Qed.

End UnitsApart.

(** X10.  No number of the text is read twice: when both patterns match,
    the hour match and the minute match start at different offsets, so the
    hours and the minutes come from two different runs of digits. *)
Theorem hours_and_minutes_from_different_numbers (t : string)
  (hour_match minute_match : match_object) :
  search hour_pattern t = Some hour_match ->
  search minute_pattern t = Some minute_match ->
  m_start hour_match <> m_start minute_match.
Proof. apply UnitsApart.starts_apart. Qed.

Lemma hours_and_minutes_from_different_numbers_witness :
  m_start (MatchObject 0 2 (Some "1")) <> m_start (MatchObject 3 6 (Some "30")).
Proof.
  apply (hours_and_minutes_from_different_numbers "1h 30m");
    vm_compute; reflexivity.
Defined.
